(** * xctestrunner: the xctestrun helper ([test_runner/xctestrun.py])

    A shallow embedding of the classes [XctestRun] and [XctestRunFactory]
    together with the Python library functions they call, and the
    properties of the configuration store and of the generation
    orchestrator that are checked against it. *)

From Stdlib Require Import ZArith Ascii String.
From stdpp Require Import gmap strings list fin_maps pretty.

Local Open Scope string_scope.

(** ** Python strings and [os.path] *)

Module Py.

(** [s.startswith(p)] *)
Fixpoint startswith (p s : string) : bool :=
  match p, s with
  | EmptyString, _ => true
  | String _ _, EmptyString => false
  | String a p', String b s' => if Ascii.eqb a b then startswith p' s' else false
  end.

(** [s[n:]] *)
Fixpoint drop (n : nat) (s : string) : string :=
  match n, s with
  | O, _ => s
  | S _, EmptyString => EmptyString
  | S n', String _ s' => drop n' s'
  end.

(** [c in s] for a character [c] *)
Fixpoint has_char (c : ascii) (s : string) : bool :=
  match s with
  | EmptyString => false
  | String a s' => Ascii.eqb c a || has_char c s'
  end.

(** [p in s]: the text [p] occurs somewhere in [s] *)
Fixpoint occurs (p s : string) : bool :=
  startswith p s ||
  match s with
  | EmptyString => false
  | String _ s' => occurs p s'
  end.

(** [s.endswith("/")] *)
Fixpoint ends_with_slash (s : string) : bool :=
  match s with
  | EmptyString => false
  | String c EmptyString => Ascii.eqb c "/"
  | String _ s' => ends_with_slash s'
  end.

(** [s.split(sep)] for a one-character separator: never the empty list. *)
Fixpoint split (sep : ascii) (s : string) : list string :=
  match s with
  | EmptyString => [EmptyString]
  | String c s' =>
      if Ascii.eqb c sep then EmptyString :: split sep s'
      else match split sep s' with
           | [] => [String c EmptyString]
           | w :: ws => String c w :: ws
           end
  end.

(** The scan of [s.replace(old, new)] for a non-empty [old]: [skip] counts
    the characters of a match that are still to be passed over. *)
Fixpoint replace_scan (old new : string) (skip : nat) (s : string) : string :=
  match s with
  | EmptyString => EmptyString
  | String c s' =>
      match skip with
      | S k => replace_scan old new k s'
      | O =>
          if startswith old s
          then new ++ replace_scan old new (String.length old - 1) s'
          else String c (replace_scan old new 0 s')
      end
  end.

(** With an empty [old], Python puts [new] before every character and at
    the end. *)
Fixpoint intersperse (new s : string) : string :=
  match s with
  | EmptyString => new
  | String c s' => new ++ String c (intersperse new s')
  end.

(** [s.replace(old, new)]: every non-overlapping occurrence, left to right. *)
Definition replace (old new s : string) : string :=
  match old with
  | EmptyString => intersperse new s
  | String _ _ => replace_scan old new 0 s
  end.

(** [os.path.basename(p)]: what follows the last slash. *)
Definition basename (p : string) : string :=
  List.last (split "/" p) EmptyString.

(** [os.path.join(a, b)] *)
Definition join (a b : string) : string :=
  if startswith "/" b then b
  else if String.eqb a "" || ends_with_slash a then a ++ b
  else a ++ "/" ++ b.

(** The position of the last [c] in [s], as [s.rfind(c)] gives it. *)
Fixpoint rfind (c : ascii) (s : string) : option nat :=
  match s with
  | EmptyString => None
  | String a s' =>
      match rfind c s' with
      | Some i => Some (S i)
      | None => if Ascii.eqb a c then Some 0 else None
      end
  end.

(** [s[:n]] *)
Fixpoint take (n : nat) (s : string) : string :=
  match n, s with
  | O, _ => EmptyString
  | S _, EmptyString => EmptyString
  | S n', String c s' => String c (take n' s')
  end.

(** Every character of [s] is a dot. *)
Fixpoint all_dots (s : string) : bool :=
  match s with
  | EmptyString => true
  | String c s' => Ascii.eqb c "." && all_dots s'
  end.

(** [os.path.splitext(p)[0]] for a [p] without a slash: the extension
    starts at the last dot, unless only dots come before it. *)
Definition splitext_root (p : string) : string :=
  match rfind "." p with
  | Some i => if all_dots (take i p) then p else take i p
  | None => p
  end.

(** [s.rstrip("/")] *)
Fixpoint rstrip_slash (s : string) : string :=
  match s with
  | EmptyString => EmptyString
  | String c s' =>
      match rstrip_slash s' with
      | EmptyString => if Ascii.eqb c "/" then EmptyString else String c EmptyString
      | String _ _ as r => String c r
      end
  end.

(** Every character of [s] is a slash. *)
Fixpoint all_slashes (s : string) : bool :=
  match s with
  | EmptyString => true
  | String c s' => Ascii.eqb c "/" && all_slashes s'
  end.

(** [os.path.split(p)]: the cut is after the last slash; the head loses
    its trailing slashes unless it is made of slashes only. *)
Definition split_path (p : string) : string * string :=
  let i := match rfind "/" p with Some i => S i | None => O end in
  let head := take i p in
  (if all_slashes head then head else rstrip_slash head, drop i p).

(** [os.path.dirname(p)] *)
Definition dirname (p : string) : string := (split_path p).1.

End Py.

(** ** Exceptions, the world and the effect monad *)

(** The exceptions of [ios_errors] that the module raises or catches, and
    the built-in ones of the Python calls it makes. *)
Inductive error :=
  | PlistError
  | IllegalArgumentError
  | XctestrunError
  | BundleError (output : string)
  | OSError
  | IOError
  | IndexError
  | TypeError
  | AttributeError.

#[global] Instance error_eq_dec : EqDecision error.
Proof. solve_decision. Defined.

Set Warnings "-register-all".

(** A property-list value: the document of an xctestrun file is a [PDict]
    and every field below it is one of these. *)
Inductive plist :=
  | PString (s : string)
  | PBool (b : bool)
  | PInteger (z : Z)
  | PArray (l : list plist)
  | PDict (d : gmap string plist).

(** What a regular file holds: a document written by the property-list
    library, kept as the value that loading it gives back, or raw text. *)
Inductive file_content :=
  | Serialized (doc : plist)
  | Text (s : string).

(** The file system is keyed by the path strings the program builds; the
    entries of a directory [p] are the keys that extend [p ++ "/"].  The
    root directory is the key ["/"], and a name without a slash is held by
    the current directory, which is always there. *)
Inductive node :=
  | NDir
  | NFile (c : file_content)
  | NLink (target : string).

Record world := World {
  fs : gmap string node;
  log : list string;
  tmp_seq : nat
}.

(** A computation over a state [S] that returns or raises; the state
    reached when an exception is raised is kept, as in Python. *)
Definition M (S A : Type) : Type := S → (error + A) * S.

#[global] Instance M_ret {S} : MRet (M S) := λ A a s, (inr a, s).
#[global] Instance M_bind {S} : MBind (M S) := λ A B f m s,
  match m s with
  | (inr a, s') => f a s'
  | (inl e, s') => (inl e, s')
  end.

Definition raise {S A} (e : error) : M S A := λ s, (inl e, s).

(** [try: m  except e: h], for the exceptions selected by [catches]. *)
Definition try_except {S A} (m : M S A) (catches : error → bool)
    (h : error → M S A) : M S A := λ s,
  match m s with
  | (inl e, s') => if catches e then h e s' else (inl e, s')
  | r => r
  end.

Definition when_ {S} (b : bool) (m : M S unit) : M S unit :=
  if b then m else mret ().

(** Methods run on a pair of [self] and the world. *)
Definition getself {O} : M (O * world) O := λ s, (inr s.1, s).
Definition setself {O} (f : O → O) : M (O * world) unit :=
  λ s, (inr (), (f s.1, s.2)).
Definition io {O A} (m : M world A) : M (O * world) A := λ s,
  let '(r, w') := m s.2 in (r, (s.1, w')).
Definition getworld : M world world := λ w, (inr w, w).

Definition is_PlistError (e : error) : bool :=
  match e with PlistError => true | _ => false end.
Definition is_BundleError (e : error) : bool :=
  match e with BundleError _ => true | _ => false end.

(** [logging.info] and [logging.warning] *)
Definition logging_info (msg : string) : M world unit := λ w,
  (inr (), World (fs w) (log w ++ ["INFO " ++ msg]) (tmp_seq w)).
Definition logging_warning (msg : string) : M world unit := λ w,
  (inr (), World (fs w) (log w ++ ["WARNING " ++ msg]) (tmp_seq w)).

Definition set_fs (f : gmap string node → gmap string node) : M world unit :=
  λ w, (inr (), World (f (fs w)) (log w) (tmp_seq w)).

(** ** The collaborators outside the module *)

(** The interface of what the module calls and does not contain: the
    serialization format of the property-list library, the path discovery
    of [xcode_info_util], the build of the dummy project, the bundle
    helper, and the names that [tempfile] chooses. *)
Record toolchain := Toolchain {
  plist_dumps : plist → string;
  plist_loads : string → option plist;
  GetXctestToolPath : string → string;
  GetSdkPlatformPath : string → string;
  (* the [with dummy_project.DummyProject(...)] block: the app under test,
     the test bundle, sdk, test type, work dir, the provisioning profile
     set on the instance if any, then the arguments of [BuildForTesting]. *)
  DummyProject_BuildForTesting :
    option string → string → string → string → string →
    option plist → string → string → M world unit;
  EnableUIFileSharing : string → M world unit;
  (* [tempfile]: the directory for temporary files, the random names that
     its generator gives, by the state of the generator, and the number of
     names that are tried. *)
  tempfile_gettempdir : string;
  tempfile_names : nat → string;
  tempfile_TMP_MAX : nat
}.

(** ** Truth values *)

Definition dict_is_empty {A} (d : gmap string A) : bool :=
  match map_to_list d with [] => true | _ => false end.

(** [bool(v)] *)
Definition truthy (v : plist) : bool :=
  match v with
  | PString s => negb (String.eqb s "")
  | PBool b => b
  | PInteger z => negb (Z.eqb z 0)
  | PArray l => match l with [] => false | _ => true end
  | PDict d => negb (dict_is_empty d)
  end.

(** [bool(v)] where [v] may be [None] *)
Definition truthy_opt (v : option plist) : bool :=
  match v with None => false | Some x => truthy x end.

Definition str_truthy_opt (v : option string) : bool :=
  match v with None => false | Some s => negb (String.eqb s "") end.

(** ** The Python file-system calls: [os], [shutil], [glob], [tempfile] *)

Module OS.

(** [k] is [p] or lies below the directory [p]. *)
Definition under (p k : string) : bool :=
  String.eqb k p || Py.startswith (p ++ "/") k.

(** A symbolic link is followed once. *)
Definition resolve (m : gmap string node) (p : string) : string :=
  match m !! p with Some (NLink t) => t | _ => p end.

Definition present (m : gmap string node) (p : string) : bool :=
  match m !! p with Some _ => true | None => false end.

(** [os.path.exists(p)]: false for a link whose target is missing. *)
Definition path_exists (p : string) : M world bool := λ w,
  (inr (present (fs w) p && present (fs w) (resolve (fs w) p)), w).

(** [os.path.islink(p)] *)
Definition path_islink (p : string) : M world bool := λ w,
  (inr match fs w !! p with Some (NLink _) => true | _ => false end, w).

(** [os.path.isdir(p)]: a symbolic link is followed. *)
Definition isdir (m : gmap string node) (p : string) : bool :=
  match m !! resolve m p with Some NDir => true | _ => false end.

(** The directory that is to hold [p] is there. *)
Definition parent_isdir (m : gmap string node) (p : string) : bool :=
  let d := Py.dirname p in String.eqb d "" || isdir m d.

(** [os.mkdir(p)]: nothing may be at [p], and the directory that is to
    hold it has to be there. *)
Definition mkdir (p : string) : M world unit := λ w,
  match fs w !! p with
  | Some _ => (inl OSError, w)
  | None =>
      if negb (String.eqb p "") && parent_isdir (fs w) p
      then set_fs (insert p NDir) w
      else (inl OSError, w)
  end.

(** [os.makedirs(name)]: the missing directories above [name] are made
    first.  The exception of the recursive call is raised as it is: the
    one that the library passes over is that of a path which is there,
    and then [os.mkdir(name)] fails. *)
Fixpoint makedirs_from (fuel : nat) (name : string) : M world unit :=
  let ht := Py.split_path name in
  let ht := if String.eqb ht.2 "" then Py.split_path ht.1 else ht in
  e ← path_exists ht.1;
  if negb (String.eqb ht.1 "") && negb (String.eqb ht.2 "") && negb e then
    match fuel with
    | O => raise OSError
    | S fuel' =>
        makedirs_from fuel' ht.1;;
        if String.eqb ht.2 "." then mret () else mkdir name
    end
  else mkdir name.

Definition makedirs (name : string) : M world unit :=
  makedirs_from (String.length name) name.

(** [tempfile.mkdtemp()]: the candidate names are tried one after the
    other until one is not in use; the directory is made under that name
    and its path returned. *)
Fixpoint mkdtemp_from (dir : string) (names : nat → string) (tries : nat)
    : M world string := λ w,
  match tries with
  | O => (inl IOError, w)
  | S tries' =>
      let file := Py.join dir ("tmp" ++ names (tmp_seq w)) in
      let w1 := World (fs w) (log w) (S (tmp_seq w)) in
      match fs w1 !! file with
      | Some _ => mkdtemp_from dir names tries' w1
      | None => (mkdir file;; mret file) w1
      end
  end.

Definition mkdtemp (tc : toolchain) : M world string :=
  mkdtemp_from (tempfile_gettempdir tc) (tempfile_names tc)
    (tempfile_TMP_MAX tc).

(** The entries of the tree at [p], and the same entries under [dst]. *)
Definition subtree (p : string) (m : gmap string node) : gmap string node :=
  filter (λ kv, under p kv.1 = true) m.

Definition rekey (src dst k : string) : string :=
  dst ++ Py.drop (String.length src) k.

Definition graft (src dst : string) (m : gmap string node) : gmap string node :=
  list_to_map ((λ kv, (rekey src dst kv.1, kv.2)) <$> map_to_list (subtree src m)).

(** [shutil.rmtree(p)]: only a real directory can be removed. *)
Definition rmtree (p : string) : M world unit := λ w,
  match fs w !! p with
  | Some NDir => set_fs (filter (λ kv, under p kv.1 = false)) w
  | _ => (inl OSError, w)
  end.

(** A directory with nothing in it. *)
Definition empty_dir (m : gmap string node) (p : string) : bool :=
  dict_is_empty (filter (λ kv, under p kv.1 = true ∧ kv.1 ≠ p) m).

(** [os.rename(src, dst)]: the directory that is to hold [dst] has to be
    there; a directory goes to a free place or onto an empty directory,
    never below itself; anything else goes to a free place or replaces
    what is not a directory. *)
Definition rename (src dst : string) : M world unit := λ w,
  let m := fs w in
  let renamed :=
    set_fs (λ m, graft src dst m ∪
      filter (λ kv, under src kv.1 = false ∧ kv.1 ≠ dst) m) w in
  match m !! src with
  | None => (inl OSError, w)
  | Some sn =>
      if String.eqb src dst then (inr (), w)
      else if String.eqb dst "" || negb (parent_isdir m dst)
      then (inl OSError, w)
      else if under src dst then (inl OSError, w)
      else match sn, m !! dst with
           | NDir, Some NDir =>
               if empty_dir m dst then renamed else (inl OSError, w)
           | NDir, Some _ => (inl OSError, w)
           | _, Some NDir => (inl OSError, w)
           | _, _ => renamed
           end
  end.

(** [os.path.samefile(src, dst)], false when a path is not there. *)
Definition samefile (m : gmap string node) (src dst : string) : bool :=
  present m src && present m (resolve m src) &&
  present m dst && String.eqb (resolve m src) (resolve m dst).

(** [shutil.move(src, dst)]: into [dst] when that is a directory, else to
    [dst] itself.  The entry is renamed; when that fails, a directory is
    copied to the new place, the missing directories above it made on the
    way, and then removed, and for anything else the copy fails. *)
Definition move (src dst : string) : M world unit := λ w,
  let m := fs w in
  let nested := isdir m dst in
  if nested && samefile m src dst then rename src dst w
  else
    let real_dst :=
      if nested then Py.join dst (Py.basename (Py.rstrip_slash src)) else dst in
    if nested && (present m real_dst && present m (resolve m real_dst))
    then (inl OSError, w)
    else
      match rename src real_dst w with
      | (inr u, w') => (inr u, w')
      | (inl _, _) =>
          if isdir m src then
            if under src dst then (inl OSError, w)
            else (makedirs real_dst;;
                  set_fs (λ m, graft (resolve m src) real_dst m ∪ m);;
                  rmtree src) w
          else (inl IOError, w)
      end.

(** [shutil.copytree(src, dst)]: [dst] must not exist; the tree a link
    points to is copied as a directory. *)
Definition copytree (src dst : string) : M world unit := λ w,
  let s := resolve (fs w) src in
  match fs w !! s, fs w !! dst with
  | Some NDir, None => set_fs (λ m, graft s dst m ∪ m) w
  | _, _ => (inl OSError, w)
  end.

(** [open(p, 'w+').write(text)] *)
Definition write_text (p text : string) : M world unit := λ w,
  let q := resolve (fs w) p in
  match fs w !! q with
  | Some NDir => (inl IOError, w)
  | _ => set_fs (insert q (NFile (Text text))) w
  end.

(** A pattern of [glob] against one path component: [*] matches any run of
    characters; other characters stand for themselves. *)
Fixpoint fnmatch (pat : string) : string → bool :=
  match pat with
  | EmptyString => λ s, String.eqb s ""
  | String a pat' =>
      if Ascii.eqb a "*" then
        fix star (s : string) : bool :=
          fnmatch pat' s ||
          match s with
          | EmptyString => false
          | String _ s' => star s'
          end
      else λ s,
        match s with
        | EmptyString => false
        | String c s' => Ascii.eqb a c && fnmatch pat' s'
        end
  end.

(** A name that starts with a dot is matched only by a pattern that does. *)
Definition component_match (pat name : string) : bool :=
  (negb (Py.startswith "." name) || Py.startswith "." pat) && fnmatch pat name.

Fixpoint components_match (pats names : list string) : bool :=
  match pats, names with
  | [], [] => true
  | p :: ps, n :: ns => component_match p n && components_match ps ns
  | _, _ => false
  end.

(** [glob.glob(pattern)]: the paths present that match component by
    component, in the arbitrary order of the listing. *)
Definition glob (pattern : string) : M world (list string) := λ w,
  (inr (filter (λ k, components_match (Py.split "/" pattern) (Py.split "/" k) = true)
          (map_to_list (fs w)).*1), w).

End OS.

(** ** [ios_constants] *)

Module ios_constants.

Module SDK.
(** Modelled from the spec: [shared/ios_constants.py] is not among the
    sources; the device target of the two supported SDK targets, under the
    name the messages of [xctestrun.py] give it. *)
Definition IPHONEOS : string := "iphoneos".
(** Modelled from the spec: [shared/ios_constants.py] is not among the
    sources; the simulator target of the two supported SDK targets. *)
Definition IPHONESIMULATOR : string := "iphonesimulator".
End SDK.

Module TestType.
(** Modelled from the spec: [shared/ios_constants.py] is not among the
    sources; the UI-driven test mode. *)
Definition XCUITEST : string := "xcuitest".
(** Modelled from the spec: [shared/ios_constants.py] is not among the
    sources; the unit/logic-adjacent test mode. *)
Definition XCTEST : string := "xctest".
(** Modelled from the spec: [shared/ios_constants.py] is not among the
    sources; the standalone logic test mode. *)
Definition LOGIC_TEST : string := "logic_test".
End TestType.

(** Modelled from the spec: [shared/ios_constants.py] is not among the
    sources; the SDK target must be one of the supported simulator and
    device targets. *)
Definition SUPPORTED_SDKS : list string :=
  [SDK.IPHONESIMULATOR; SDK.IPHONEOS].

(** Modelled from the spec: [shared/ios_constants.py] is not among the
    sources; the test mode must be one of the three supported modes. *)
Definition SUPPORTED_TEST_TYPES : list string :=
  [TestType.XCUITEST; TestType.XCTEST; TestType.LOGIC_TEST].

End ios_constants.

(** [x in l] and [x == y] on strings *)
Definition str_in (x : string) (l : list string) : bool :=
  bool_decide (x ∈ l).
Definition opt_str_eqb (x : option string) (y : string) : bool :=
  bool_decide (x = Some y).

Definition TESTROOT_RELATIVE_PATH : string := "__TESTROOT__".
Definition _SIGNAL_TEST_WITHOUT_BUILDING_SUCCEEDED : string :=
  "** TEST EXECUTE SUCCEEDED **".
Definition _SIGNAL_TEST_WITHOUT_BUILDING_FAILED : string :=
  "** TEST EXECUTE FAILED **".

(** ** [plist_util.Plist] *)

Module plist_util.

(** Modelled from the spec: [shared/plist_util.py] is not among the
    sources; a field path is a sequence of mapping keys, and resolution
    walks the document segment by segment, failing when a segment is absent
    or the container at a segment is not a mapping. *)
Fixpoint walk (keys : list string) (obj : plist) : option plist :=
  match keys with
  | [] => Some obj
  | k :: rest =>
      match obj with
      | PDict d => match d !! k with Some sub => walk rest sub | None => None end
      | _ => None
      end
  end.

(** Modelled from the spec: [shared/plist_util.py] is not among the
    sources; writing puts the value at the resolved location, overwrites
    what the path already holds, and fails when an intermediate segment
    does not exist: intermediate containers are not created. *)
Fixpoint update (keys : list string) (value obj : plist) : option plist :=
  match keys with
  | [] => None
  | k :: rest =>
      match obj with
      | PDict d =>
          match rest with
          | [] => Some (PDict (<[k := value]> d))
          | _ :: _ =>
              match d !! k with
              | Some sub =>
                  match update rest value sub with
                  | Some sub' => Some (PDict (<[k := sub']> d))
                  | None => None
                  end
              | None => None
              end
          end
      | _ => None
      end
  end.

(** Modelled from the spec: [shared/plist_util.py] is not among the
    sources; deleting removes the field at the resolved location and fails
    when it is absent. *)
Fixpoint remove (keys : list string) (obj : plist) : option plist :=
  match keys with
  | [] => None
  | k :: rest =>
      match obj with
      | PDict d =>
          match d !! k with
          | Some sub =>
              match rest with
              | [] => Some (PDict (delete k d))
              | _ :: _ =>
                  match remove rest sub with
                  | Some sub' => Some (PDict (<[k := sub']> d))
                  | None => None
                  end
              end
          | None => None
          end
      | _ => None
      end
  end.

(** The segments of a field string: [field.split(':')]. *)
Definition segments (field : string) : list string := Py.split ":" field.

(** The object [Plist(plist_file_path)]. *)
Record Plist := { _plist_file_path : string }.

Section store.
Context (tc : toolchain).

(** The text of a file, as [open(p).read()] gives it. *)
Definition file_text (c : file_content) : string :=
  match c with
  | Serialized doc => plist_dumps tc doc
  | Text s => s
  end.

(** The document of a file, as the property-list library loads it. *)
Definition file_doc (c : file_content) : option plist :=
  match c with
  | Serialized doc => Some doc
  | Text s => plist_loads tc s
  end.

(** [open(p, 'r').read()] *)
Definition read_text (p : string) : M world string := λ w,
  match fs w !! OS.resolve (fs w) p with
  | Some (NFile c) => (inr (file_text c), w)
  | _ => (inl IOError, w)
  end.

(** Modelled from the spec: [shared/plist_util.py] is not among the
    sources; the store reads its document from the file at every call. *)
Definition load (self : Plist) : M world plist := λ w,
  match fs w !! _plist_file_path self with
  | Some (NFile c) =>
      match file_doc c with
      | Some doc => (inr doc, w)
      | None => (inl IOError, w)
      end
  | _ => (inl IOError, w)
  end.

(** Modelled from the spec: [shared/plist_util.py] is not among the
    sources; the store writes its document back to the file. *)
Definition dump (self : Plist) (doc : plist) : M world unit :=
  set_fs (insert (_plist_file_path self) (NFile (Serialized doc))).

(** Modelled from the spec: [shared/plist_util.py] is not among the
    sources; get by path, a lookup error when the path does not resolve;
    no field is the whole document. *)
Definition GetPlistField (self : Plist) (field : option string) : M world plist :=
  doc ← load self;
  match field with
  | None => mret doc
  | Some f =>
      match walk (segments f) doc with
      | Some v => mret v
      | None => raise PlistError
      end
  end.

(** Modelled from the spec: [shared/plist_util.py] is not among the
    sources; set by path; the logic-test pipeline creates the document
    with it, so a missing file is an empty mapping. *)
Definition SetPlistField (self : Plist) (field : string) (value : plist)
    : M world unit :=
  w ← getworld;
  doc ← (if OS.present (fs w) (_plist_file_path self) then load self
         else mret (PDict ∅));
  match update (segments field) value doc with
  | Some doc' => dump self doc'
  | None => raise PlistError
  end.

(** Modelled from the spec: [shared/plist_util.py] is not among the
    sources; delete by path, a lookup error when the field is absent. *)
Definition DeletePlistField (self : Plist) (field : string) : M world unit :=
  doc ← load self;
  match remove (segments field) doc with
  | Some doc' => dump self doc'
  | None => raise PlistError
  end.

End store.
End plist_util.

(** ** [class XctestRun] *)

Module XctestRun.
Import plist_util ios_constants.

Record obj := Obj {
  _xctestrun_file_path : string;
  _xctestrun_file_plist_obj : Plist;
  _root_key : string;
  _test_type : option string
}.

Definition with_test_type (t : option string) (self : obj) : obj :=
  Obj (_xctestrun_file_path self) (_xctestrun_file_plist_obj self)
      (_root_key self) t.

(** The type of a method body: its state is [self] and the world. *)
Abbreviation method A := (M (obj * world) A).

(** [for key, value in env_vars.items(): target[key] = value]: only a
    mapping takes an assignment under a string key. *)
Definition assign_items {S} (env_vars : gmap string string) (target : plist)
    : M S plist :=
  match target with
  | PDict d =>
      mret (PDict (map_fold (λ key value acc, <[key := PString value]> acc)
                     d env_vars))
  | _ => raise TypeError
  end.

Definition strings (args : list string) : plist := PArray (PString <$> args).

Section methods.
Context (tc : toolchain).

(** [XctestRun(xctestrun_file_path, test_type)] *)
Definition __init__ (xctestrun_file_path : string) (test_type : option string)
    : M world obj :=
  let plist_obj := {| _plist_file_path := xctestrun_file_path |} in
  (* xctestrun file always has only key at root dict. *)
  root ← GetPlistField tc plist_obj None;
  match root with
  | PDict d =>
      match (map_to_list d).*1 with
      | key :: _ => mret (Obj xctestrun_file_path plist_obj key test_type)
      | [] => raise IndexError
      end
  | _ => raise AttributeError
  end.

Definition GetXctestrunField (field : string) : method (option plist) :=
  self ← getself;
  try_except
    (v ← io (GetPlistField tc (_xctestrun_file_plist_obj self)
               (Some (_root_key self ++ ":" ++ field)));
     mret (Some v))
    is_PlistError (λ _, mret None).

Definition HasXctestrunField (field : string) : method bool :=
  self ← getself;
  try_except
    (io (GetPlistField tc (_xctestrun_file_plist_obj self)
           (Some (_root_key self ++ ":" ++ field)));;
     mret true)
    is_PlistError (λ _, mret false).

Definition SetXctestrunField (field : string) (value : plist) : method unit :=
  self ← getself;
  io (SetPlistField tc (_xctestrun_file_plist_obj self)
        (_root_key self ++ ":" ++ field) value).

Definition DeleteXctestrunField (field : string) : method unit :=
  self ← getself;
  io (DeletePlistField tc (_xctestrun_file_plist_obj self)
        (_root_key self ++ ":" ++ field)).

Definition SetTestEnvVars (env_vars : gmap string string) : method unit :=
  if dict_is_empty env_vars then mret () else
  test_env_vars ← GetXctestrunField "EnvironmentVariables";
  test_env_vars ← assign_items env_vars
    (match test_env_vars with
     | Some v => if truthy v then v else PDict ∅
     | None => PDict ∅
     end);
  SetXctestrunField "EnvironmentVariables" test_env_vars.

Definition SetTestArgs (args : list string) : method unit :=
  match args with
  | [] => mret ()
  | _ :: _ =>
      (* The generated xctest is always empty. So set it directly. *)
      SetXctestrunField "CommandLineArguments" (strings args)
  end.

Definition SetAppUnderTestEnvVars (env_vars : gmap string string) : method unit :=
  if dict_is_empty env_vars then mret () else
  self ← getself;
  let key := if opt_str_eqb (_test_type self) TestType.XCUITEST
             then "UITargetAppEnvironmentVariables"
             else "EnvironmentVariables" in
  aut_env_vars ← GetXctestrunField key;
  aut_env_vars ← assign_items env_vars
    (match aut_env_vars with
     | Some v => if truthy v then v else PDict ∅
     | None => PDict ∅
     end);
  SetXctestrunField key aut_env_vars.

Definition SetAppUnderTestArgs (args : list string) : method unit :=
  match args with
  | [] => mret ()
  | _ :: _ =>
      self ← getself;
      let key := if opt_str_eqb (_test_type self) TestType.XCUITEST
                 then "UITargetAppCommandLineArguments"
                 else "CommandLineArguments" in
      SetXctestrunField key (strings args)
  end.

Definition SetTestsToRun (tests_to_run : list string) : method unit :=
  if bool_decide (tests_to_run = []) || bool_decide (tests_to_run = ["all"])
  then mret ()
  else SetXctestrunField "OnlyTestIdentifiers" (strings tests_to_run).

Definition SetSkipTests (skip_tests : list string) : method unit :=
  match skip_tests with
  | [] => mret ()
  | _ :: _ => SetXctestrunField "SkipTestIdentifiers" (strings skip_tests)
  end.

(** The property [test_type]. *)
Definition test_type : method (option string) :=
  self ← getself;
  (if negb (str_truthy_opt (_test_type self)) then
     has ← HasXctestrunField "UITargetAppPath";
     if has : bool
     then setself (with_test_type (Some TestType.XCUITEST))
     else setself (with_test_type (Some TestType.XCTEST))
   else mret ());;
  self ← getself;
  mret (_test_type self).

(** Runs the test with generated xctestrun file in the specific device.
    [executor] stands for [XcodebuildTestExecutor(command, succeeded_signal,
    failed_signal, sdk, test_type, device_id).Execute(return_output=False)]
    of [xcodebuild_test_executor], outside the module: it returns the exit
    code and the output. *)
Definition Run
    (executor : list string → string → string → string → option string →
                string → M world (Z * string))
    (device_id sdk derived_data_dir : string) : method Z :=
  self ← getself;
  io (logging_info ("Running test-without-building with device " ++ device_id));;
  let command := ["xcodebuild"; "test-without-building";
                  "-xctestrun"; _xctestrun_file_path self;
                  "-destination"; "id=" ++ device_id;
                  "-derivedDataPath"; derived_data_dir] in
  test_type ← test_type;
  r ← io (executor command _SIGNAL_TEST_WITHOUT_BUILDING_SUCCEEDED
            _SIGNAL_TEST_WITHOUT_BUILDING_FAILED sdk test_type device_id);
  mret r.1.

End methods.
End XctestRun.

(** ** [class XctestRunFactory] *)

Module XctestRunFactory.
Import plist_util ios_constants.

Record obj := Obj {
  _app_under_test_dir : option string;
  _test_bundle_dir : string;
  _test_name : string;
  _sdk : string;
  _test_type : string;
  _signing_options : option (gmap string plist);
  _work_dir : option string;
  _test_root_dir : option string;
  _xctestrun_file_path : option string;
  _xctestrun_obj : option XctestRun.obj;
  _delete_work_dir : bool
}.

Definition with_app_under_test_dir v (o : obj) : obj :=
  Obj v (_test_bundle_dir o) (_test_name o) (_sdk o) (_test_type o)
    (_signing_options o) (_work_dir o) (_test_root_dir o)
    (_xctestrun_file_path o) (_xctestrun_obj o) (_delete_work_dir o).
Definition with_test_bundle_dir v (o : obj) : obj :=
  Obj (_app_under_test_dir o) v (_test_name o) (_sdk o) (_test_type o)
    (_signing_options o) (_work_dir o) (_test_root_dir o)
    (_xctestrun_file_path o) (_xctestrun_obj o) (_delete_work_dir o).
Definition with_work_dir v (o : obj) : obj :=
  Obj (_app_under_test_dir o) (_test_bundle_dir o) (_test_name o) (_sdk o)
    (_test_type o) (_signing_options o) v (_test_root_dir o)
    (_xctestrun_file_path o) (_xctestrun_obj o) (_delete_work_dir o).
Definition with_test_root_dir v (o : obj) : obj :=
  Obj (_app_under_test_dir o) (_test_bundle_dir o) (_test_name o) (_sdk o)
    (_test_type o) (_signing_options o) (_work_dir o) v
    (_xctestrun_file_path o) (_xctestrun_obj o) (_delete_work_dir o).
Definition with_xctestrun_file_path v (o : obj) : obj :=
  Obj (_app_under_test_dir o) (_test_bundle_dir o) (_test_name o) (_sdk o)
    (_test_type o) (_signing_options o) (_work_dir o) (_test_root_dir o)
    v (_xctestrun_obj o) (_delete_work_dir o).
Definition with_xctestrun_obj v (o : obj) : obj :=
  Obj (_app_under_test_dir o) (_test_bundle_dir o) (_test_name o) (_sdk o)
    (_test_type o) (_signing_options o) (_work_dir o) (_test_root_dir o)
    (_xctestrun_file_path o) v (_delete_work_dir o).
Definition with_delete_work_dir v (o : obj) : obj :=
  Obj (_app_under_test_dir o) (_test_bundle_dir o) (_test_name o) (_sdk o)
    (_test_type o) (_signing_options o) (_work_dir o) (_test_root_dir o)
    (_xctestrun_file_path o) (_xctestrun_obj o) v.

Abbreviation method A := (M (obj * world) A).

(** An attribute that must not be [None] where it is used. *)
Definition unwrap {S A} (v : option A) : M S A :=
  match v with Some a => mret a | None => raise TypeError end.

(** A method of [self._xctestrun_obj]. *)
Definition on_xctestrun_obj {A} (m : XctestRun.method A) : method A := λ s,
  match _xctestrun_obj s.1 with
  | None => (inl AttributeError, s)
  | Some x =>
      let '(r, (x', w')) := m (x, s.2) in
      (r, (with_xctestrun_obj (Some x') s.1, w'))
  end.

(** [bool(signing_options)] and [signing_options.get(key)] *)
Definition options_truthy (o : option (gmap string plist)) : bool :=
  match o with None => false | Some d => negb (dict_is_empty d) end.
Definition options_get (o : option (gmap string plist)) (key : string)
    : option plist :=
  match o with None => None | Some d => d !! key end.

(** Moves the file under target directory and replace it if it exists. *)
Definition _MoveAndReplaceFile (src_file target_parent_dir : string)
    : M world string :=
  let new_file_path := Py.join target_parent_dir (Py.basename src_file) in
  e ← OS.path_exists new_file_path;
  when_ e (OS.rmtree new_file_path);;
  OS.move src_file new_file_path;;
  mret new_file_path.

(** Checks whether the arguments of this class are valid. *)
Definition _ValidateArguments : method unit :=
  self ← getself;
  if negb (str_in (_sdk self) SUPPORTED_SDKS) then raise IllegalArgumentError
  else if negb (str_in (_test_type self) SUPPORTED_TEST_TYPES)
  then raise IllegalArgumentError
  else if String.eqb (_test_type self) TestType.LOGIC_TEST &&
          negb (String.eqb (_sdk self) SDK.IPHONESIMULATOR)
  then raise IllegalArgumentError
  else mret ().

(** [XctestRunFactory(app_under_test_dir, test_bundle_dir, sdk, test_type,
    signing_options, work_dir)] *)
Definition __init__ (app_under_test_dir : option string)
    (test_bundle_dir sdk test_type : string)
    (signing_options : option (gmap string plist)) (work_dir : option string)
    : M world obj := λ w,
  let body : method unit :=
    self ← getself;
    (if String.eqb (_sdk self) SDK.IPHONEOS then mret ()
     else
       when_ (negb (options_truthy signing_options))
         (io (logging_info
                ("The signing options only works on sdk iphoneos, but current sdk is "
                 ++ _sdk self)));;
       setself (λ o, Obj (_app_under_test_dir o) (_test_bundle_dir o)
                  (_test_name o) (_sdk o) (_test_type o) (Some ∅) (_work_dir o)
                  (_test_root_dir o) (_xctestrun_file_path o)
                  (_xctestrun_obj o) (_delete_work_dir o)));;
    _ValidateArguments in
  let self0 :=
    Obj app_under_test_dir test_bundle_dir
      (Py.splitext_root (Py.basename test_bundle_dir)) sdk test_type
      signing_options work_dir None None None false in
  match body (self0, w) with
  | (inr _, (self, w')) => (inr self, w')
  | (inl e, (_, w')) => (inl e, w')
  end.

Section methods.
Context (tc : toolchain).

(** [paths[0]] *)
Definition first_path (paths : list string) : method string :=
  match paths with p :: _ => mret p | [] => raise IndexError end.

(** Generates the xctestrun file for XCUITest. *)
Definition _GenerateXctestrunFileForXcuitest : method unit :=
  self ← getself;
  work_dir ← unwrap (_work_dir self);
  test_root_dir ← unwrap (_test_root_dir self);
  let dummyproject_derived_data_dir :=
    Py.join work_dir "dummyproject_derived_data" in
  let profile :=
    if options_truthy (_signing_options self) &&
       truthy_opt (options_get (_signing_options self)
                     "xctrunner_app_provisioning_profile")
    then options_get (_signing_options self) "xctrunner_app_provisioning_profile"
    else None in
  (* Use TEST_ROOT as dummy project's build products dir. *)
  io (DummyProject_BuildForTesting tc (_app_under_test_dir self)
        (_test_bundle_dir self) (_sdk self) (_test_type self) work_dir profile
        test_root_dir dummyproject_derived_data_dir);;
  let derived_data_build_products_dir :=
    Py.join (Py.join dummyproject_derived_data_dir "Build") "Products" in
  generated_xctrunner_app_dirs ←
    io (OS.glob (derived_data_build_products_dir ++ "/Debug-*/*-Runner.app"));
  when_ (bool_decide (generated_xctrunner_app_dirs = [])) (raise XctestrunError);;
  when_ (bool_decide (1 < length generated_xctrunner_app_dirs))
    (raise XctestrunError);;
  generated_app ← first_path generated_xctrunner_app_dirs;
  let xctrunner_app_dir := Py.join test_root_dir (Py.basename generated_app) in
  io (OS.move generated_app xctrunner_app_dir);;
  when_ (options_truthy (_signing_options self) &&
         truthy_opt (options_get (_signing_options self)
                       "xctrunner_app_enable_ui_file_sharing"))
    (try_except (io (EnableUIFileSharing tc xctrunner_app_dir)) is_BundleError
       (λ e, match e with
             | BundleError output => io (logging_warning output)
             | _ => mret ()
             end));;
  (* The test bundle under XCTRunner.app/PlugIns is not actual test bundle. *)
  let xctrunner_plugins_dir := Py.join xctrunner_app_dir "PlugIns" in
  e ← io (OS.path_exists xctrunner_plugins_dir);
  when_ e (io (OS.rmtree xctrunner_plugins_dir));;
  io (OS.mkdir xctrunner_plugins_dir);;
  (* The test bundle should not exist under the new generated XCTRunner.app. *)
  l ← io (OS.path_islink (_test_bundle_dir self));
  (if l : bool then
     let new_test_bundle_path :=
       Py.join xctrunner_plugins_dir (Py.basename (_test_bundle_dir self)) in
     io (OS.copytree (_test_bundle_dir self) new_test_bundle_path);;
     setself (with_test_bundle_dir new_test_bundle_path)
   else
     p ← io (_MoveAndReplaceFile (_test_bundle_dir self) xctrunner_plugins_dir);
     setself (with_test_bundle_dir p));;
  generated_xctestrun_file_paths ←
    io (OS.glob (derived_data_build_products_dir ++ "/*.xctestrun"));
  when_ (bool_decide (generated_xctestrun_file_paths = []))
    (raise XctestrunError);;
  let xctestrun_file_path := Py.join test_root_dir "xctestrun.plist" in
  setself (with_xctestrun_file_path (Some xctestrun_file_path));;
  generated_file ← first_path generated_xctestrun_file_paths;
  io (OS.move generated_file xctestrun_file_path);;
  x ← io (XctestRun.__init__ tc xctestrun_file_path (Some (_test_type self)));
  setself (with_xctestrun_obj (Some x));;
  on_xctestrun_obj
    (XctestRun.SetXctestrunField tc "TestHostPath" (PString xctrunner_app_dir));;
  self ← getself;
  app_under_test_dir ← unwrap (_app_under_test_dir self);
  on_xctestrun_obj
    (XctestRun.SetXctestrunField tc "UITargetAppPath" (PString app_under_test_dir));;
  on_xctestrun_obj
    (XctestRun.SetXctestrunField tc "TestBundlePath"
       (PString (_test_bundle_dir self)));;
  (* When running on iphoneos, it is necessary to remove this field. *)
  on_xctestrun_obj
    (XctestRun.DeleteXctestrunField tc
       "TestingEnvironmentVariables:IDEiPhoneInternalTestBundleName").

(** Generates the xctestrun file for XCTest. *)
Definition _GenerateXctestrunFileForXctest : method unit :=
  self ← getself;
  work_dir ← unwrap (_work_dir self);
  test_root_dir ← unwrap (_test_root_dir self);
  let dummyproject_derived_data_dir :=
    Py.join work_dir "dummyproject_derived_data" in
  (* Use TEST_ROOT as dummy project's build products dir. *)
  io (DummyProject_BuildForTesting tc (_app_under_test_dir self)
        (_test_bundle_dir self) (_sdk self) (_test_type self) work_dir None
        test_root_dir dummyproject_derived_data_dir);;
  app_under_test_dir ← unwrap (_app_under_test_dir self);
  let app_under_test_plugins_dir := Py.join app_under_test_dir "PlugIns" in
  e ← io (OS.path_exists app_under_test_plugins_dir);
  when_ (negb e) (io (OS.mkdir app_under_test_plugins_dir));;
  let new_test_bundle_path :=
    Py.join app_under_test_plugins_dir (Py.basename (_test_bundle_dir self)) in
  (* The test bundle under PlugIns can not be symlink. *)
  l ← io (OS.path_islink (_test_bundle_dir self));
  (if l : bool then
     io (OS.copytree (_test_bundle_dir self) new_test_bundle_path);;
     setself (with_test_bundle_dir new_test_bundle_path)
   else if negb (String.eqb new_test_bundle_path (_test_bundle_dir self)) then
     p ← io (_MoveAndReplaceFile (_test_bundle_dir self)
               app_under_test_plugins_dir);
     setself (with_test_bundle_dir p)
   else mret ());;
  let derived_data_build_products_dir :=
    Py.join (Py.join dummyproject_derived_data_dir "Build") "Products" in
  generated_xctestrun_file_paths ←
    io (OS.glob (derived_data_build_products_dir ++ "/*.xctestrun"));
  when_ (bool_decide (generated_xctestrun_file_paths = []))
    (raise XctestrunError);;
  let xctestrun_file_path := Py.join test_root_dir "xctestrun.plist" in
  setself (with_xctestrun_file_path (Some xctestrun_file_path));;
  generated_file ← first_path generated_xctestrun_file_paths;
  io (OS.move generated_file xctestrun_file_path);;
  x ← io (XctestRun.__init__ tc xctestrun_file_path (Some (_test_type self)));
  setself (with_xctestrun_obj (Some x));;
  self ← getself;
  on_xctestrun_obj
    (XctestRun.SetXctestrunField tc "TestBundlePath"
       (PString (_test_bundle_dir self))).

(** Generates the xctestrun file for Logic Test. *)
Definition _GenerateXctestrunFileForLogicTest : method unit :=
  self ← getself;
  test_root_dir ← unwrap (_test_root_dir self);
  let xctestrun_file_path := Py.join test_root_dir "xctestrun.plist" in
  setself (with_xctestrun_file_path (Some xctestrun_file_path));;
  let test_bundle_name :=
    hd "" (Py.split "." (Py.basename (_test_bundle_dir self))) in
  io (SetPlistField tc {| _plist_file_path := xctestrun_file_path |}
        test_bundle_name (PDict ∅));;
  x ← io (XctestRun.__init__ tc xctestrun_file_path (Some (_test_type self)));
  setself (with_xctestrun_obj (Some x));;
  on_xctestrun_obj
    (XctestRun.SetXctestrunField tc "TestBundlePath"
       (PString (_test_bundle_dir self)));;
  on_xctestrun_obj
    (XctestRun.SetXctestrunField tc "TestHostPath"
       (PString (GetXctestToolPath tc (_sdk self))));;
  let dyld_framework_path :=
    Py.join (GetSdkPlatformPath tc (_sdk self)) "Developer/Library/Frameworks" in
  on_xctestrun_obj
    (XctestRun.SetXctestrunField tc "TestingEnvironmentVariables"
       (PDict (<["DYLD_FRAMEWORK_PATH" := PString dyld_framework_path]>
                 (<["DYLD_LIBRARY_PATH" := PString dyld_framework_path]> ∅)))).

(** The dispatch of [GenerateXctestrun] on the test type. *)
Definition dispatch : method unit :=
  self ← getself;
  if String.eqb (_test_type self) TestType.XCUITEST
  then _GenerateXctestrunFileForXcuitest
  else if String.eqb (_test_type self) TestType.XCTEST
  then _GenerateXctestrunFileForXctest
  else if String.eqb (_test_type self) TestType.LOGIC_TEST
  then _GenerateXctestrunFileForLogicTest
  else mret ().

(** The work dir, [TEST_ROOT] in it, and the two bundles moved there. *)
Definition prepare : method unit :=
  self ← getself;
  (if str_truthy_opt (_work_dir self) then
     work_dir ← unwrap (_work_dir self);
     e ← io (OS.path_exists work_dir);
     when_ (negb e) (io (OS.mkdir work_dir))
   else
     d ← io (OS.mkdtemp tc);
     setself (with_work_dir (Some d));;
     setself (with_delete_work_dir true));;
  self ← getself;
  work_dir ← unwrap (_work_dir self);
  let test_root_dir := Py.join work_dir "TEST_ROOT" in
  setself (with_test_root_dir (Some test_root_dir));;
  e ← io (OS.path_exists test_root_dir);
  when_ (negb e) (io (OS.mkdir test_root_dir));;
  (* Move the app under test dir and test bundle dir into TEST_ROOT first
     to avoid file copy later. *)
  (if str_truthy_opt (_app_under_test_dir self) then
     app_under_test_dir ← unwrap (_app_under_test_dir self);
     p ← io (_MoveAndReplaceFile app_under_test_dir test_root_dir);
     setself (with_app_under_test_dir (Some p))
   else mret ());;
  p ← io (_MoveAndReplaceFile (_test_bundle_dir self) test_root_dir);
  setself (with_test_bundle_dir p).

(** Replace the TESTROOT absolute path with __TESTROOT__ in xctestrun
    file. *)
Definition make_portable : method unit :=
  self ← getself;
  xctestrun_file_path ← unwrap (_xctestrun_file_path self);
  test_root_dir ← unwrap (_test_root_dir self);
  xctestrun_file_content ← io (read_text tc xctestrun_file_path);
  let xctestrun_file_content :=
    Py.replace test_root_dir TESTROOT_RELATIVE_PATH xctestrun_file_content in
  io (OS.write_text xctestrun_file_path xctestrun_file_content).

(** Generates a xctestrun object according to arguments. *)
Definition GenerateXctestrun : method XctestRun.obj :=
  self ← getself;
  match _xctestrun_obj self with
  | Some x => mret x
  | None =>
      io (logging_info "Generating xctestrun file.");;
      prepare;;
      dispatch;;
      make_portable;;
      self ← getself;
      unwrap (_xctestrun_obj self)
  end.

(** Deletes the temp directories. *)
Definition Close : method unit :=
  self ← getself;
  if _delete_work_dir self then
    work_dir ← unwrap (_work_dir self);
    e ← io (OS.path_exists work_dir);
    when_ e (io (OS.rmtree work_dir))
  else mret ().

Definition __enter__ : method XctestRun.obj := GenerateXctestrun.
Definition __exit__ : method unit := Close.

End methods.
End XctestRunFactory.

(** ** Notions used by the statements *)

Import plist_util ios_constants.

(** The file of the object holds a document whose root key, free of the
    delimiter, maps to the mapping [fields]: every field of an xctestrun
    file lives below that key. *)
Definition store_ok (tc : toolchain) (x : XctestRun.obj) (w : world)
    (fields : gmap string plist) : Prop :=
  Py.has_char ":" (XctestRun._root_key x) = false ∧
  ∃ c doc,
    fs w !! _plist_file_path (XctestRun._xctestrun_file_plist_obj x)
      = Some (NFile c) ∧
    file_doc tc c = Some (PDict doc) ∧
    doc !! XctestRun._root_key x = Some (PDict fields).

(** A path that was never set: some segment is absent, or the container
    at a segment is not a mapping. *)
Inductive absent : list string → plist → Prop :=
  | absent_key k rest d :
      d !! k = None → absent (k :: rest) (PDict d)
  | absent_not_navigable k rest v :
      (∀ d, v ≠ PDict d) → absent (k :: rest) v
  | absent_below k rest d sub :
      d !! k = Some sub → absent rest sub → absent (k :: rest) (PDict d).

(** The mapping a field holds, empty when it holds none. *)
Definition mapping_of (fields : gmap string plist) (key : string)
    : gmap string plist :=
  match fields !! key with Some (PDict e) => e | _ => ∅ end.

(** What a field may hold for the environment setters to run: nothing, an
    empty value, or a mapping. *)
Definition mergeable (fields : gmap string plist) (key : string) : Prop :=
  ∀ v, fields !! key = Some v → truthy v = true → ∃ e, v = PDict e.

(** The condition under which replacing [old] by [new] leaves no [old]
    behind: the first character of [old] is not in [new], and no proper
    suffix of [old] starts [new] or starts with it. *)
Fixpoint no_border (new q : string) : bool :=
  match q with
  | EmptyString => true
  | String _ q' =>
      negb (Py.startswith q new) && negb (Py.startswith new q) &&
      no_border new q'
  end.

Definition clean_replace (old new : string) : bool :=
  match old with
  | EmptyString => false
  | String c old' => negb (Py.has_char c new) && no_border new old'
  end.

(** A method that leaves the work dir and the root dir of [self] as they
    are, whether it returns or raises. *)
Definition keeps_dirs {A} (m : XctestRunFactory.method A) : Prop :=
  ∀ s r s', m s = (r, s') →
    XctestRunFactory._work_dir s'.1 = XctestRunFactory._work_dir s.1 ∧
    XctestRunFactory._test_root_dir s'.1 = XctestRunFactory._test_root_dir s.1.

(** A method that leaves an attribute of [self] as it is, whether it
    returns or raises. *)
Definition keeps_field {T A} (attribute : XctestRunFactory.obj → T)
    (m : XctestRunFactory.method A) : Prop :=
  ∀ s r s', m s = (r, s') → attribute s'.1 = attribute s.1.

(** A directory that is there, or that nothing stands in the place of. *)
Definition dir_or_absent (w : world) (p : string) : Prop :=
  fs w !! p = Some NDir ∨ fs w !! p = None.


(** A directory that is there, or a free place for one: nothing stands
    there and the directory that is to hold it is there. *)
Definition dir_or_free (w : world) (p : string) : Prop :=
  fs w !! p = Some NDir ∨
  (fs w !! p = None ∧ p ≠ "" ∧ OS.parent_isdir (fs w) p = true).




(** ** An example toolchain and example worlds *)

Module Example.

(** A serialization in the style of an XML property list. *)
Fixpoint dumps (v : plist) : string :=
  match v with
  | PString s => "<string>" ++ s ++ "</string>"
  | PBool b => if b then "<true/>" else "<false/>"
  | PInteger z => "<integer>" ++ pretty z ++ "</integer>"
  | PArray l => "<array>" ++ foldr (λ x acc, dumps x ++ acc) "" l ++ "</array>"
  | PDict d =>
      "<dict>" ++
      map_fold (λ k x acc, "<key>" ++ k ++ "</key>" ++ dumps x ++ acc) "" d ++
      "</dict>"
  end.

(** A build that leaves the given entries, named relative to the products
    directory, in the derived data. *)
Definition build (generated : list (string * node))
    : option string → string → string → string → string →
      option plist → string → string → M world unit :=
  λ _ _ _ _ _ _ _ derived_data_dir,
    set_fs (λ m,
      foldr (λ f acc, <[derived_data_dir ++ "/Build/Products/" ++ f.1 := f.2]> acc)
        m generated).

Definition tc (generated : list (string * node)) : toolchain := {|
  plist_dumps := dumps;
  plist_loads := λ _, None;
  GetXctestToolPath := λ sdk, "/Xcode/Platforms/" ++ sdk ++ "/Agents/xctest";
  GetSdkPlatformPath := λ sdk, "/Xcode/Platforms/" ++ sdk;
  DummyProject_BuildForTesting := build generated;
  EnableUIFileSharing := λ _, mret ();
  tempfile_gettempdir := "/tmp";
  tempfile_names := λ n, pretty n;
  tempfile_TMP_MAX := 100 * 100
|}.

(** A test bundle and an app, not yet moved. *)
Definition inputs : world :=
  World (<["/in/MyTests.xctest" := NDir]>
          (<["/in/MyTests.xctest/Info.plist" := NFile (Text "bundle")]>
            (<["/in/App.app" := NDir]>
              (<["/in" := NDir]> (<["/tmp" := NDir]> {["/" := NDir]}))))) [] 0.


(** An xctestrun file with the root key [MyTests] and one field. *)
Definition fields : gmap string plist :=
  {["TestBundlePath" := PString "__TESTROOT__/MyTests.xctest"]}.

Definition stored : world :=
  World {["/run/xctestrun.plist"
          := NFile (Serialized (PDict {["MyTests" := PDict fields]}))]} [] 0.

Definition x : XctestRun.obj :=
  XctestRun.Obj "/run/xctestrun.plist"
    {| _plist_file_path := "/run/xctestrun.plist" |} "MyTests" None.

(** The factory for a logic test, as the constructor leaves it. *)
Definition logic_factory : XctestRunFactory.obj :=
  XctestRunFactory.Obj None "/in/MyTests.xctest" "MyTests"
    SDK.IPHONESIMULATOR TestType.LOGIC_TEST (Some ∅) (Some "/work")
    None None None false.

(** The factory for a unit test of the app. *)
Definition xctest_factory : XctestRunFactory.obj :=
  XctestRunFactory.Obj (Some "/in/App.app") "/in/MyTests.xctest" "MyTests"
    SDK.IPHONESIMULATOR TestType.XCTEST (Some ∅) (Some "/work")
    None None None false.

(** A generated xctestrun file that names a product in the derived data
    of the dummy project. *)
Definition derived : list (string * node) :=
  [("Dummy.xctestrun",
    NFile (Serialized (PDict {["MyTests" := PDict {["DependentProductPaths" :=
      PArray [PString
        "/work/dummyproject_derived_data/Build/Products/Debug-iphonesimulator/MyTests.xctest"]]}]})))].

End Example.

(** ** Examples of the scan for generated files *)

Module Scan.

Definition first_doc : plist :=
  PDict {["First" := PDict {["TestingEnvironmentVariables" :=
            PDict {["IDEiPhoneInternalTestBundleName" := PString "Dummy"]}]}]}.
Definition second_doc : plist := PDict {["Second" := PDict ∅]}.

Definition runner : list (string * node) :=
  [("Debug-iphonesimulator/MyTests-Runner.app", NDir);
   ("Debug-iphonesimulator/MyTests-Runner.app/PlugIns", NDir)].

(** The products of a build that left two xctestrun files. *)
Definition two_files : list (string * node) :=
  [("a.xctestrun", NFile (Serialized first_doc));
   ("b.xctestrun", NFile (Serialized second_doc))] ++ runner.

(** The outcome of a generation from the example inputs, and the matches
    that the scan of the products directory has to choose from. *)
Definition generate (test_type : string) (generated : list (string * node))
    : option (error + XctestRun.obj) :=
  match XctestRunFactory.__init__ (Some "/in/App.app") "/in/MyTests.xctest"
          SDK.IPHONESIMULATOR test_type None (Some "/work") Example.inputs with
  | (inr self, w) =>
      Some (XctestRunFactory.GenerateXctestrun (Example.tc generated) (self, w)).1
  | (inl _, _) => None
  end.

Definition matches (generated : list (string * node)) : list string :=
  match (Example.build generated None "" "" "" "" None ""
           "/work/dummyproject_derived_data";;
         OS.glob "/work/dummyproject_derived_data/Build/Products/*.xctestrun")
          Example.inputs with
  | (inr l, _) => l
  | (inl _, _) => []
  end.

End Scan.

(** ** Running the monad *)

Lemma bind_inr {S A B} (m : M S A) (f : A → M S B) s a s' :
  m s = (inr a, s') → (m ≫= f) s = f a s'.
Proof. unfold mbind, M_bind. by intros ->. Qed.

Lemma bind_inl {S A B} (m : M S A) (f : A → M S B) s e s' :
  m s = (inl e, s') → (m ≫= f) s = (inl e, s').
Proof. unfold mbind, M_bind. by intros ->. Qed.

(** ** Facts about the string functions *)

Lemma split_app_sep sep a b :
  Py.has_char sep a = false →
  Py.split sep (a ++ String sep b) = a :: Py.split sep b.
Proof.
  induction a as [|c a IH]; simpl.
  - intros _. by rewrite Ascii.eqb_refl.
  - intros H. apply orb_false_iff in H as [Hc Ha].
    rewrite Ascii.eqb_sym in Hc. rewrite Hc, (IH Ha). done.
Qed.

Lemma split_no_sep sep a :
  Py.has_char sep a = false → Py.split sep a = [a].
Proof.
  induction a as [|c a IH]; simpl; [done|].
  intros H. apply orb_false_iff in H as [Hc Ha].
  rewrite Ascii.eqb_sym in Hc. by rewrite Hc, (IH Ha).
Qed.

Lemma segments_rooted root field :
  Py.has_char ":" root = false →
  segments (root ++ ":" ++ field) = root :: segments field.
Proof. apply split_app_sep. Qed.

(** ** Facts about the store *)

Lemma walk_None_absent keys v : walk keys v = None ↔ absent keys v.
Proof.
  split.
  - revert v. induction keys as [|k rest IH]; intros v; simpl; [done|].
    destruct v as [s|b|z|l|d];
      try (intros _; apply absent_not_navigable; intros d'; discriminate).
    destruct (d !! k) as [sub|] eqn:Hk.
    + intros H. eapply absent_below; eauto.
    + intros _. by apply absent_key.
  - induction 1 as [k rest d Hk|k rest v Hv|k rest d sub Hk _ IH]; simpl.
    + by rewrite Hk.
    + destruct v; try done. by destruct (Hv d).
    + by rewrite Hk.
Qed.

Lemma assign_items_merge {S} (env_vars : gmap string string)
    (d : gmap string plist) (s : S) :
  XctestRun.assign_items env_vars (PDict d) s
  = (inr (PDict ((PString <$> env_vars) ∪ d)), s).
Proof.
  unfold XctestRun.assign_items, mret, M_ret. do 3 f_equal.
  apply (map_fold_weak_ind
           (λ r m, r = (PString <$> m) ∪ d)).
  - by rewrite fmap_empty, (left_id_L ∅ (∪)).
  - intros i v m r _ ->. by rewrite fmap_insert, insert_union_l.
Qed.

Lemma dict_is_empty_true {A} (d : gmap string A) :
  dict_is_empty d = true → d = ∅.
Proof.
  unfold dict_is_empty. destruct (map_to_list d) eqn:H; [|done].
  intros _. by apply map_to_list_empty_iff.
Qed.

Section store_facts.
Context (tc : toolchain).

Lemma load_ok x w fields :
  store_ok tc x w fields →
  ∃ doc, load tc (XctestRun._xctestrun_file_plist_obj x) w
           = (inr (PDict doc), w) ∧
         doc !! XctestRun._root_key x = Some (PDict fields).
Proof.
  intros (_ & c & doc & Hf & Hd & Hr). exists doc. split; [|done].
  unfold load. by rewrite Hf, Hd.
Qed.

Lemma GetXctestrunField_walk x w fields field :
  store_ok tc x w fields →
  XctestRun.GetXctestrunField tc field (x, w) =
    (inr (walk (segments field) (PDict fields)), (x, w)).
Proof.
  intros Hok. destruct (load_ok _ _ _ Hok) as (doc & Hl & Hr).
  destruct Hok as (Hc & _).
  unfold XctestRun.GetXctestrunField, try_except, GetPlistField, io, getself.
  unfold mbind, M_bind, mret, M_ret, raise. simpl.
  rewrite Hl, (segments_rooted _ _ Hc). simpl. rewrite Hr.
  by destruct (walk (segments field) (PDict fields)).
Qed.

Lemma HasXctestrunField_walk x w fields field :
  store_ok tc x w fields →
  XctestRun.HasXctestrunField tc field (x, w) =
    (inr (bool_decide (is_Some (walk (segments field) (PDict fields)))),
     (x, w)).
Proof.
  intros Hok. destruct (load_ok _ _ _ Hok) as (doc & Hl & Hr).
  destruct Hok as (Hc & _).
  unfold XctestRun.HasXctestrunField, try_except, GetPlistField, io, getself.
  unfold mbind, M_bind, mret, M_ret, raise. simpl.
  rewrite Hl, (segments_rooted _ _ Hc). simpl. rewrite Hr.
  by destruct (walk (segments field) (PDict fields)).
Qed.

Lemma GetXctestrunField_key x w fields key :
  store_ok tc x w fields →
  Py.has_char ":" key = false →
  XctestRun.GetXctestrunField tc key (x, w) = (inr (fields !! key), (x, w)).
Proof.
  intros Hok Hk. rewrite (GetXctestrunField_walk _ _ _ _ Hok).
  unfold segments. rewrite (split_no_sep _ _ Hk). simpl.
  by destruct (fields !! key).
Qed.

Lemma SetXctestrunField_key x w fields key value :
  store_ok tc x w fields →
  Py.has_char ":" key = false →
  ∃ w', XctestRun.SetXctestrunField tc key value (x, w) = (inr (), (x, w')) ∧
        store_ok tc x w' (<[key := value]> fields) ∧
        log w' = log w.
Proof.
  intros Hok Hk. destruct (load_ok _ _ _ Hok) as (doc & Hl & Hr).
  destruct Hok as (Hc & c & doc0 & Hf & Hd & Hr0).
  unfold XctestRun.SetXctestrunField, SetPlistField, io, getself, getworld, dump.
  unfold mbind, M_bind, mret, M_ret, raise. simpl.
  unfold OS.present. rewrite Hf, Hl, (segments_rooted _ _ Hc). simpl.
  rewrite Hr. unfold segments. rewrite (split_no_sep _ _ Hk). simpl.
  eexists. split; [reflexivity|]. split; [|done].
  split; [done|]. eexists _, _. simpl. rewrite lookup_insert_eq.
  split; [done|]. split; [done|]. by rewrite lookup_insert_eq.
Qed.

(** One call of [SetTestEnvVars] merges into the mapping of the field; with
    nothing to set, not even an absent field is created. *)
Lemma SetTestEnvVars_merge x w fields env_vars :
  store_ok tc x w fields →
  mergeable fields "EnvironmentVariables" →
  ∃ w' fields',
    XctestRun.SetTestEnvVars tc env_vars (x, w) = (inr (), (x, w')) ∧
    store_ok tc x w' fields' ∧
    mergeable fields' "EnvironmentVariables" ∧
    mapping_of fields' "EnvironmentVariables"
      = (PString <$> env_vars) ∪ mapping_of fields "EnvironmentVariables" ∧
    (∀ key, key ≠ "EnvironmentVariables" → fields' !! key = fields !! key).
Proof.
  intros Hok Hm. unfold XctestRun.SetTestEnvVars.
  destruct (dict_is_empty env_vars) eqn:He.
  - apply dict_is_empty_true in He as ->. exists w, fields.
    rewrite fmap_empty, (left_id_L ∅ (∪)). done.
  - set (d := mapping_of fields "EnvironmentVariables").
    assert (match fields !! "EnvironmentVariables" with
            | Some v => if truthy v then v else PDict ∅
            | None => PDict ∅
            end = PDict (if truthy_opt (fields !! "EnvironmentVariables")
                         then d else ∅)) as Hv.
    { subst d. unfold mapping_of.
      destruct (fields !! "EnvironmentVariables") as [v|] eqn:Hf; [|done].
      simpl. destruct (truthy v) eqn:Ht; [|done].
      by destruct (Hm v Hf Ht) as [e ->]. }
    assert ((if truthy_opt (fields !! "EnvironmentVariables") then d else ∅)
            = d) as Hd.
    { subst d. unfold mapping_of.
      destruct (fields !! "EnvironmentVariables") as [v|]; [|done]. simpl.
      destruct v as [ | | | |e]; try by destruct (truthy _).
      simpl. destruct (dict_is_empty e) eqn:Hde; [|done].
      by apply dict_is_empty_true in Hde as ->. }
    rewrite Hd in Hv.
    destruct (SetXctestrunField_key x w fields "EnvironmentVariables"
                (PDict ((PString <$> env_vars) ∪ d)) Hok eq_refl)
      as (w' & Hset & Hok' & _).
    exists w', (<["EnvironmentVariables" := PDict ((PString <$> env_vars) ∪ d)]> fields).
    split.
    { rewrite (bind_inr _ _ _ _ _
                 (GetXctestrunField_key x w fields "EnvironmentVariables"
                    Hok eq_refl)).
      rewrite Hv.
      by rewrite (bind_inr _ _ _ _ _ (assign_items_merge env_vars d (x, w))). }
    split; [done|]. split.
    { intros v. rewrite lookup_insert_eq. intros [= <-] _. eauto. }
    split.
    { unfold mapping_of at 1. by rewrite lookup_insert_eq. }
    intros key Hne. by rewrite lookup_insert_ne.
Qed.

End store_facts.

(** ** Facts about [str.replace] *)

Lemma str_app_cons c a b : String c a ++ b = String c (a ++ b).
Proof. reflexivity. Qed.

Lemma str_app_nil b : "" ++ b = b.
Proof. reflexivity. Qed.

Lemma startswith_length p s :
  Py.startswith p s = true → (String.length p ≤ String.length s)%nat.
Proof.
  revert s. induction p as [|a p IH]; intros [|b s]; simpl; try done; [lia|].
  destruct (Ascii.eqb a b); [|done]. intros H. apply IH in H. lia.
Qed.

Lemma startswith_drop p s :
  Py.startswith p s = true → s = p ++ Py.drop (String.length p) s.
Proof.
  revert s. induction p as [|a p IH]; intros [|b s]; simpl; try done.
  destruct (Ascii.eqb a b) eqn:Hab; [|done].
  apply Ascii.eqb_eq in Hab as ->. intros H.
  by rewrite str_app_cons, <-(IH _ H).
Qed.

(** A prefix of [a ++ b] starts [a] or starts with it. *)
Lemma startswith_app_cases q a b :
  Py.startswith q (a ++ b) = true →
  Py.startswith q a = true ∨ Py.startswith a q = true.
Proof.
  revert a. induction q as [|c q IH]; intros a; [by left|].
  destruct a as [|d a]; [by right|]. rewrite str_app_cons. simpl.
  destruct (Ascii.eqb c d) eqn:Hcd; [|done].
  rewrite Ascii.eqb_sym, Hcd. apply IH.
Qed.

Lemma startswith_tail c q s :
  Py.startswith (String c q) (String c s) = Py.startswith q s.
Proof. simpl. by rewrite Ascii.eqb_refl. Qed.

Lemma replace_scan_skip old new n s :
  Py.replace_scan old new n s = Py.replace_scan old new 0 (Py.drop n s).
Proof.
  revert n. induction s as [|c s IH]; intros [|n]; simpl; done.
Qed.

(** The scan, one step at a time. *)
Lemma replace_scan_step c0 old' new c s :
  let old := String c0 old' in
  Py.replace_scan old new 0 (String c s) =
    if Py.startswith old (String c s)
    then new ++ Py.replace_scan old new 0 (Py.drop (String.length old) (String c s))
    else String c (Py.replace_scan old new 0 s).
Proof.
  intros old. simpl. destruct (Ascii.eqb c0 c); [|done].
  destruct (Py.startswith old' s); [|done].
  by rewrite Nat.sub_0_r, replace_scan_skip.
Qed.

Lemma length_drop_le n s :
  (String.length (Py.drop n s) ≤ String.length s)%nat.
Proof.
  revert s. induction n as [|n IH]; intros [|c s]; simpl; try lia.
  specialize (IH s). lia.
Qed.

Lemma no_border_cons new c q :
  no_border new (String c q) = true →
  Py.startswith (String c q) new = false ∧
  Py.startswith new (String c q) = false ∧
  no_border new q = true.
Proof.
  change (no_border new (String c q))
    with (negb (Py.startswith (String c q) new) &&
          negb (Py.startswith new (String c q)) && no_border new q).
  intros H. apply andb_true_iff in H as [H H3].
  apply andb_true_iff in H as [H1 H2].
  by apply negb_true_iff in H1, H2.
Qed.

(** What the scan of a text starts with, the text started with. *)
Lemma startswith_replace_scan c0 old' new q s :
  no_border new q = true →
  Py.startswith q (Py.replace_scan (String c0 old') new 0 s) = true →
  Py.startswith q s = true.
Proof.
  revert q. induction s as [|c s IH]; intros q Hq; [done|].
  rewrite replace_scan_step.
  destruct (Py.startswith (String c0 old') (String c s)).
  - destruct q as [|b q]; [done|]. intros H.
    apply startswith_app_cases in H.
    apply no_border_cons in Hq as (H1 & H2 & _).
    destruct H as [H|H]; congruence.
  - destruct q as [|b q]; [done|]. simpl.
    destruct (Ascii.eqb b c); [|done].
    apply IH. by apply no_border_cons in Hq as (_ & _ & Hq).
Qed.

Lemma occurs_skip_new old new u :
  match old with
  | EmptyString => False
  | String c0 _ => Py.has_char c0 new = false
  end →
  Py.occurs old (new ++ u) = Py.occurs old u.
Proof.
  destruct old as [|c0 old']; [done|]. induction new as [|a new IH]; [done|].
  intros H. simpl in H. apply orb_false_iff in H as [Ha Hn].
  change (Py.occurs (String c0 old') (String a new ++ u))
    with (Py.startswith (String c0 old') (String a (new ++ u))
          || Py.occurs (String c0 old') (new ++ u)).
  simpl. rewrite Ha. simpl. by apply IH.
Qed.

(** After the replacement no occurrence of [old] is left, when [old] and
    [new] are such that the replacement cannot build one. *)
Lemma replace_leaves_none old new s :
  clean_replace old new = true →
  Py.occurs old (Py.replace old new s) = false.
Proof.
  destruct old as [|c0 old']; [done|]. simpl.
  intros H. apply andb_true_iff in H as [Hc Hb]. apply negb_true_iff in Hc.
  remember (String.length s) as n eqn:Hn.
  assert (String.length s ≤ n)%nat as Hle by lia. clear Hn.
  revert s Hle. induction n as [|n IH]; intros s Hle.
  - destruct s; [done | simpl in Hle; lia].
  - destruct s as [|c s]; [done|]. rewrite replace_scan_step.
    destruct (Py.startswith (String c0 old') (String c s)) eqn:Hst.
    + rewrite (occurs_skip_new (String c0 old')); [|done].
      apply IH. pose proof (length_drop_le (String.length old') s).
      simpl in *. lia.
    + change (Py.occurs (String c0 old')
                (String c (Py.replace_scan (String c0 old') new 0 s)))
        with (Py.startswith (String c0 old')
                (String c (Py.replace_scan (String c0 old') new 0 s))
              || Py.occurs (String c0 old')
                   (Py.replace_scan (String c0 old') new 0 s)).
      rewrite IH by (simpl in Hle; lia). rewrite orb_false_r.
      simpl in *. destruct (Ascii.eqb c0 c); [|done].
      destruct (Py.startswith old' (Py.replace_scan (String c0 old') new 0 s))
        eqn:Hr; [|done].
      apply startswith_replace_scan in Hr; [congruence | done].
Qed.

(** ** The path of [TEST_ROOT] and the token *)

Lemma str_length_app a b :
  String.length (a ++ b) = (String.length a + String.length b)%nat.
Proof.
  induction a as [|c a IH]; [done|].
  rewrite str_app_cons. simpl. by rewrite IH.
Qed.

Lemma startswith_app_long p x y :
  Py.startswith p (x ++ y) = true →
  (String.length p ≤ String.length x)%nat →
  Py.startswith p x = true.
Proof.
  revert x. induction p as [|a p IH]; intros [|b x]; try done.
  - simpl. lia.
  - rewrite str_app_cons. simpl. destruct (Ascii.eqb a b); [|done].
    intros H Hl. apply IH; [done | lia].
Qed.

(** Decides a [startswith] between texts of known length, one character
    after the other. *)
Ltac settle_chars :=
  rewrite ?str_app_cons, ?str_app_nil; cbn [Py.startswith];
  repeat lazymatch goal with
  | |- (if Ascii.eqb ?a ?b then _ else _) = true → _ =>
      let E := fresh "E" in
      destruct (Ascii.eqb a b) eqn:E;
        [apply Ascii.eqb_eq in E; try discriminate E | done]
  end;
  try done; try (intros _; simpl; lia).

(** The cases of a text [x] of at most [n] characters. *)
Ltac enumerate x n tac :=
  lazymatch n with
  | O => idtac
  | S ?k => destruct x as [|? x]; [tac | enumerate x k tac]
  end.

(** No text that ends with the directory name starts the token, and the
    token starts none that it does not already start without the name. *)
Lemma no_border_at_root tail x :
  tail = "TEST_ROOT" ∨ tail = "/TEST_ROOT" →
  Py.startswith TESTROOT_RELATIVE_PATH x = false →
  Py.startswith (x ++ tail) TESTROOT_RELATIVE_PATH = false ∧
  Py.startswith TESTROOT_RELATIVE_PATH (x ++ tail) = false.
Proof.
  unfold TESTROOT_RELATIVE_PATH. intros Htail Hx. split.
  - destruct (Py.startswith (x ++ tail) "__TESTROOT__") eqn:H; [|done].
    pose proof (startswith_length _ _ H) as Hl. rewrite str_length_app in Hl.
    exfalso. revert H Hl.
    destruct Htail as [-> | ->];
      (enumerate x 4%nat ltac:(settle_chars); intros _; simpl; lia).
  - destruct (Py.startswith "__TESTROOT__" (x ++ tail)) eqn:H; [|done].
    destruct (decide (String.length "__TESTROOT__" ≤ String.length x)%nat)
      as [Hl|Hl].
    { by rewrite (startswith_app_long _ _ _ H Hl) in Hx. }
    exfalso. revert H Hl. clear Hx.
    destruct Htail as [-> | ->];
      (enumerate x 12%nat ltac:(settle_chars); intros _; simpl; lia).
Qed.

Lemma no_border_root tail u :
  tail = "TEST_ROOT" ∨ tail = "/TEST_ROOT" →
  Py.occurs TESTROOT_RELATIVE_PATH u = false →
  no_border TESTROOT_RELATIVE_PATH (u ++ tail) = true.
Proof.
  intros Htail. induction u as [|a u IH].
  - intros _. by destruct Htail as [-> | ->].
  - intros H.
    change (Py.occurs TESTROOT_RELATIVE_PATH (String a u))
      with (Py.startswith TESTROOT_RELATIVE_PATH (String a u)
            || Py.occurs TESTROOT_RELATIVE_PATH u) in H.
    apply orb_false_iff in H as [Hst Hoc].
    destruct (no_border_at_root tail (String a u) Htail Hst) as [H1 H2].
    rewrite str_app_cons in *.
    change (no_border TESTROOT_RELATIVE_PATH (String a (u ++ tail)))
      with (negb (Py.startswith (String a (u ++ tail)) TESTROOT_RELATIVE_PATH) &&
            negb (Py.startswith TESTROOT_RELATIVE_PATH (String a (u ++ tail))) &&
            no_border TESTROOT_RELATIVE_PATH (u ++ tail)).
    by rewrite H1, H2, (IH Hoc).
Qed.

(** For an absolute work dir that does not contain the token, replacing
    the path of [TEST_ROOT] by the token cannot build that path anew. *)
Lemma clean_replace_test_root work_dir :
  Py.startswith "/" work_dir = true →
  Py.occurs TESTROOT_RELATIVE_PATH work_dir = false →
  clean_replace (Py.join work_dir "TEST_ROOT") TESTROOT_RELATIVE_PATH = true.
Proof.
  destruct work_dir as [|c wd]; [done|]. cbn [Py.startswith].
  destruct (Ascii.eqb "/" c) eqn:Hc; [|done]. apply Ascii.eqb_eq in Hc as <-.
  intros _ H.
  change (Py.occurs TESTROOT_RELATIVE_PATH (String "/" wd))
    with (Py.startswith TESTROOT_RELATIVE_PATH (String "/" wd)
          || Py.occurs TESTROOT_RELATIVE_PATH wd) in H.
  apply orb_false_iff in H as [_ Hoc].
  unfold Py.join.
  change (Py.startswith "/" "TEST_ROOT") with false. cbv iota.
  change (String.eqb (String "/" wd) "") with false. rewrite orb_false_l.
  destruct (Py.ends_with_slash (String "/" wd)).
  - rewrite str_app_cons. apply andb_true_iff. split; [reflexivity|].
    apply no_border_root; auto.
  - rewrite str_app_cons. apply andb_true_iff. split; [reflexivity|].
    change ("/" ++ "TEST_ROOT") with "/TEST_ROOT".
    apply no_border_root; auto.
Qed.

(** ** Running the methods of the factory *)

Lemma bind_inv {S A B} (m : M S A) (f : A → M S B) s b s' :
  (m ≫= f) s = (inr b, s') →
  ∃ a s1, m s = (inr a, s1) ∧ f a s1 = (inr b, s').
Proof. unfold mbind, M_bind. destruct (m s) as [[e|a] s1]; [done | eauto]. Qed.

Lemma io_inv {O A} (m : M world A) (s : O * world) r s' :
  io m s = (r, s') → ∃ w', m s.2 = (r, w') ∧ s' = (s.1, w').
Proof. unfold io. destruct (m s.2) as [r' w']. intros [= <- <-]. eauto. Qed.

Lemma unwrap_inv {S A} (v : option A) (s : S) a s' :
  XctestRunFactory.unwrap v s = (inr a, s') → v = Some a ∧ s' = s.
Proof. destruct v; [by intros [= <- <-] | done]. Qed.

Lemma keeps_ret {A} (a : A) : keeps_dirs (mret a).
Proof. by intros s r s' [= <- <-]. Qed.

Lemma keeps_raise {A} e : keeps_dirs (raise e : XctestRunFactory.method A).
Proof. by intros s r s' [= <- <-]. Qed.

Lemma keeps_getself : keeps_dirs getself.
Proof. by intros s r s' [= <- <-]. Qed.

Lemma keeps_io {A} (m : M world A) : keeps_dirs (io m).
Proof. intros s r s' H. by apply io_inv in H as (w' & _ & ->). Qed.

Lemma keeps_bind {A B} (m : XctestRunFactory.method A)
    (f : A → XctestRunFactory.method B) :
  keeps_dirs m → (∀ a, keeps_dirs (f a)) → keeps_dirs (m ≫= f).
Proof.
  intros Hm Hf s r s'. unfold mbind, M_bind.
  destruct (m s) as [[e|a] s1] eqn:H1.
  - intros [= <- <-]. by eapply Hm.
  - intros H2. destruct (Hm _ _ _ H1) as [<- <-]. by eapply Hf.
Qed.

Lemma keeps_when b (m : XctestRunFactory.method unit) :
  keeps_dirs m → keeps_dirs (when_ b m).
Proof. destruct b; [done | intros _; apply keeps_ret]. Qed.

Lemma keeps_try_except {A} (m : XctestRunFactory.method A) catches h :
  keeps_dirs m → (∀ e, keeps_dirs (h e)) → keeps_dirs (try_except m catches h).
Proof.
  intros Hm Hh s r s'. unfold try_except.
  destruct (m s) as [[e|a] s1] eqn:H1.
  - destruct (catches e).
    + intros H2. destruct (Hm _ _ _ H1) as [<- <-]. by eapply Hh.
    + intros [= <- <-]. by eapply Hm.
  - intros [= <- <-]. by eapply Hm.
Qed.

Lemma keeps_unwrap {A} (v : option A) : keeps_dirs (XctestRunFactory.unwrap v).
Proof. destruct v; [apply keeps_ret | apply keeps_raise]. Qed.

Lemma keeps_first_path l : keeps_dirs (XctestRunFactory.first_path l).
Proof. destruct l; [apply keeps_raise | apply keeps_ret]. Qed.

Lemma keeps_on_xctestrun_obj {A} (m : XctestRun.method A) :
  keeps_dirs (XctestRunFactory.on_xctestrun_obj m).
Proof.
  intros s r s'. unfold XctestRunFactory.on_xctestrun_obj.
  destruct (XctestRunFactory._xctestrun_obj s.1); [|by intros [= <- <-]].
  destruct (m _) as [r' [x' w']]. by intros [= <- <-].
Qed.

Lemma keeps_setself (f : XctestRunFactory.obj → XctestRunFactory.obj) :
  (∀ o, XctestRunFactory._work_dir (f o) = XctestRunFactory._work_dir o ∧
        XctestRunFactory._test_root_dir (f o) = XctestRunFactory._test_root_dir o) →
  keeps_dirs (setself f).
Proof. intros Hf s r s' [= <- <-]. apply Hf. Qed.

(** Goes through a method body, statement by statement. *)
Ltac keeps_dirs_tac :=
  repeat first
    [ apply keeps_bind; [|intros ?]
    | apply keeps_ret | apply keeps_raise | apply keeps_getself
    | apply keeps_io | apply keeps_unwrap | apply keeps_first_path
    | apply keeps_on_xctestrun_obj
    | apply keeps_when
    | apply keeps_try_except; [|intros ?]
    | apply keeps_setself; done
    | match goal with
      | |- keeps_dirs (if ?b then _ else _) => destruct b
      | |- keeps_dirs (match ?e with _ => _ end) => destruct e
      end ].

Lemma keeps_dispatch tc : keeps_dirs (XctestRunFactory.dispatch tc).
Proof.
  unfold XctestRunFactory.dispatch,
    XctestRunFactory._GenerateXctestrunFileForXcuitest,
    XctestRunFactory._GenerateXctestrunFileForXctest,
    XctestRunFactory._GenerateXctestrunFileForLogicTest.
  keeps_dirs_tac.
Qed.

(** After [prepare], the root dir of [self] is [TEST_ROOT] in its work
    dir. *)
Lemma prepare_dirs tc s s' :
  XctestRunFactory.prepare tc s = (inr (), s') →
  ∃ work_dir,
    XctestRunFactory._work_dir s'.1 = Some work_dir ∧
    XctestRunFactory._test_root_dir s'.1 = Some (Py.join work_dir "TEST_ROOT").
Proof.
  unfold XctestRunFactory.prepare. intros H.
  apply bind_inv in H as (self & s0 & _ & H).
  apply bind_inv in H as ([] & sA & _ & H).
  apply bind_inv in H as (selfA & sA' & [= <- <-] & H).
  apply bind_inv in H as (work_dir & s1 & Hwd & H).
  apply unwrap_inv in Hwd as [Hwd ->].
  apply bind_inv in H as ([] & sB & [= <-] & H).
  match type of H with
  | ?m _ = _ => assert (keeps_dirs m) as Hk by keeps_dirs_tac
  end.
  destruct (Hk _ _ _ H) as [-> ->]. exists work_dir. simpl. by rewrite Hwd.
Qed.

(** ** Facts about paths and about moving a tree *)

Lemma str_app_inj a b c : a ++ b = a ++ c → b = c.
Proof.
  induction a as [|x a IH]; [done|]. rewrite !str_app_cons.
  intros [= H]. by apply IH.
Qed.

Lemma str_app_assoc a b c : (a ++ b) ++ c = a ++ (b ++ c).
Proof.
  induction a as [|x a IH]; [done|]. by rewrite !str_app_cons, IH.
Qed.

Lemma ends_with_slash_app a c b :
  Py.ends_with_slash (a ++ String c b) = Py.ends_with_slash (String c b).
Proof.
  induction a as [|d a IH]; [done|]. rewrite str_app_cons, <-IH.
  destruct a as [|e a]; [by rewrite str_app_nil|by rewrite str_app_cons].
Qed.

(** The path of [TEST_ROOT] is the work dir and more, and it does not end
    with a slash. *)
Lemma join_TEST_ROOT work_dir :
  work_dir ≠ "" →
  ∃ sep, Py.join work_dir "TEST_ROOT" = work_dir ++ sep ++ "TEST_ROOT".
Proof.
  intros Hne. unfold Py.join.
  change (Py.startswith "/" "TEST_ROOT") with false. cbv iota.
  destruct (String.eqb work_dir "") eqn:He;
    [by apply String.eqb_eq in He|]. rewrite orb_false_l.
  destruct (Py.ends_with_slash work_dir); [by exists ""|by exists "/"].
Qed.

Lemma join_below_root work_dir name :
  work_dir ≠ "" →
  Py.startswith "/" name = false →
  Py.join (Py.join work_dir "TEST_ROOT") name
  = Py.join work_dir "TEST_ROOT" ++ "/" ++ name.
Proof.
  intros Hne Hname. destruct (join_TEST_ROOT work_dir Hne) as [sep ->].
  unfold Py.join. rewrite Hname.
  assert (work_dir ++ sep ++ "TEST_ROOT" = (work_dir ++ sep) ++ "TEST_ROOT")
    as -> by by rewrite str_app_assoc.
  rewrite ends_with_slash_app.
  change (Py.ends_with_slash "TEST_ROOT") with false. rewrite orb_false_r.
  destruct (String.eqb _ "") eqn:He; [|done].
  apply String.eqb_eq in He. by destruct (work_dir ++ sep).
Qed.

Lemma str_app_not_self a b : b ≠ "" → a ++ b ≠ a.
Proof.
  intros Hb H. apply Hb.
  apply (str_app_inj a). rewrite H. clear.
  induction a as [|c a IH]; [done|]. by rewrite str_app_cons, <-IH.
Qed.

Lemma root_not_work_dir work_dir :
  work_dir ≠ "" → Py.join work_dir "TEST_ROOT" ≠ work_dir.
Proof.
  intros Hne. destruct (join_TEST_ROOT work_dir Hne) as [sep ->].
  apply str_app_not_self. by destruct sep.
Qed.

Lemma below_not_work_dir work_dir name :
  work_dir ≠ "" → Py.join work_dir "TEST_ROOT" ++ "/" ++ name ≠ work_dir.
Proof.
  intros Hne. destruct (join_TEST_ROOT work_dir Hne) as [sep ->].
  rewrite !str_app_assoc. apply str_app_not_self. by destruct sep.
Qed.




(** A key that no moved entry can get is not in the moved tree. *)
Lemma graft_lookup_None src dst m k :
  (∀ z, k ≠ dst ++ z) → OS.graft src dst m !! k = None.
Proof.
  intros Hk. unfold OS.graft. apply not_elem_of_list_to_map_1.
  rewrite <-list_fmap_compose. intros Hin.
  apply list_elem_of_fmap in Hin as ([k0 n] & -> & _).
  by apply (Hk (Py.drop (String.length src) k0)).
Qed.

Lemma str_app_empty_r a : a ++ "" = a.
Proof. induction a as [|c a IH]; [done|]. by rewrite str_app_cons, IH. Qed.


Lemma startswith_app p z : Py.startswith p (p ++ z) = true.
Proof.
  induction p as [|c p IH]; [done|]. rewrite str_app_cons. simpl.
  by rewrite Ascii.eqb_refl.
Qed.

(** The paths at or below [p] are [p] itself and [p] followed by a slash
    and more. *)
Lemma under_iff p k :
  OS.under p k = true ↔
  ∃ z, (z = "" ∨ Py.startswith "/" z = true) ∧ k = p ++ z.
Proof.
  unfold OS.under. split.
  - intros H. apply orb_true_iff in H as [H|H].
    + apply String.eqb_eq in H as ->. exists "".
      by rewrite str_app_empty_r; auto.
    + apply startswith_drop in H.
      exists ("/" ++ Py.drop (String.length (p ++ "/")) k).
      split; [by right|]. by rewrite <-str_app_assoc.
  - intros (z & [-> | Hz] & ->).
    + by rewrite str_app_empty_r, String.eqb_refl.
    + destruct z as [|c z]; [done|]. cbn [Py.startswith] in Hz.
      destruct (Ascii.eqb "/" c) eqn:Hc; [|done].
      apply Ascii.eqb_eq in Hc as <-. apply orb_true_iff. right.
      change (String "/" z) with ("/" ++ z).
      by rewrite <-str_app_assoc, startswith_app.
Qed.






Lemma under_self p : OS.under p p = true.
Proof. unfold OS.under. by rewrite String.eqb_refl. Qed.





(** ** [os.path.dirname] of a path below a directory *)













(** ** Running the generation step by step *)

Lemma bind_getself {O B} (f : O → M (O * world) B) s :
  (getself ≫= f) s = f s.1 s.
Proof. reflexivity. Qed.

Lemma bind_setself {O B} (g : O → O) (f : unit → M (O * world) B) s :
  (setself g ≫= f) s = f () (g s.1, s.2).
Proof. reflexivity. Qed.


Lemma bind_unwrap {S A B} (a : A) (f : A → M S B) s :
  (XctestRunFactory.unwrap (Some a) ≫= f) s = f a s.
Proof. reflexivity. Qed.

Lemma bind_io {O A B} (m : M world A) (f : A → M (O * world) B) o w a w' :
  m w = (inr a, w') → (io m ≫= f) (o, w) = f a (o, w').
Proof. intros H. unfold mbind, M_bind, io. simpl. by rewrite H. Qed.

Lemma bind_assoc {S A B C} (m : M S A) (f : A → M S B) (g : B → M S C) s :
  ((m ≫= f) ≫= g) s = (m ≫= (λ a, f a ≫= g)) s.
Proof. unfold mbind, M_bind. by destruct (m s) as [[e|a] s1]. Qed.

Lemma path_exists_dir p w :
  fs w !! p = Some NDir → OS.path_exists p w = (inr true, w).
Proof.
  intros H. unfold OS.path_exists, OS.present, OS.resolve. by rewrite !H.
Qed.

Lemma path_exists_absent p w :
  fs w !! p = None → OS.path_exists p w = (inr false, w).
Proof. intros H. unfold OS.path_exists, OS.present. by rewrite !H. Qed.

Lemma dir_or_free_absent w p : dir_or_free w p → dir_or_absent w p.
Proof. intros [H|[H _]]; [by left|by right]. Qed.




Lemma insert_dir_keeps (w : world) p k node :
  dir_or_absent w p → fs w !! k = Some node →
  <[p := NDir]> (fs w) !! k = Some node.
Proof.
  intros Hp Hk. destruct (decide (p = k)) as [->|Hne].
  - rewrite lookup_insert_eq. destruct Hp as [Hp|Hp]; congruence.
  - by rewrite lookup_insert_ne.
Qed.




Section exact_store.
Context (tc : toolchain).





End exact_store.


Lemma read_text_inv tc p w r w' :
  read_text tc p w = (r, w') → w' = w.
Proof.
  unfold read_text. destruct (fs w !! OS.resolve (fs w) p) as [[|c|t]|];
    by intros [= <- <-].
Qed.

(** What was written is what is read back. *)
Lemma read_after_write tc p text w w' :
  OS.write_text p text w = (inr (), w') →
  read_text tc p w' = (inr text, w').
Proof.
  unfold OS.write_text, read_text, OS.resolve, set_fs.
  destruct (fs w !! p) as [n|] eqn:Hp.
  - destruct n as [|c|t].
    + rewrite Hp. done.
    + rewrite Hp. intros [= <-]. simpl. by rewrite !lookup_insert_eq.
    + destruct (fs w !! t) as [[|c'|t']|] eqn:Ht; [done|..];
        intros [= <-]; simpl;
        (destruct (decide (t = p)) as [->|Hne];
         [by rewrite !lookup_insert_eq
         |by rewrite (lookup_insert_ne _ t p) by done;
             rewrite Hp, lookup_insert_eq]).
  - rewrite Hp. intros [= <-]. simpl. by rewrite !lookup_insert_eq.
Qed.



Lemma example_store_ok :
  store_ok (Example.tc []) Example.x Example.stored Example.fields.
Proof.
  split; [reflexivity|].
  exists (Serialized (PDict {["MyTests" := PDict Example.fields]})),
    {["MyTests" := PDict Example.fields]}.
  split; [reflexivity|]. split; reflexivity.
Qed.

(** ** The configuration store: claims C3, C6, C7, C8 and C10 *)

(** C3, as amended: for a field that was never set, [GetXctestrunField]
    does not raise a lookup error, it returns [None]; this differs from
    what it returns for a field that exists, whatever the value of that
    field, even an empty or false one; and [HasXctestrunField] returns
    false, without raising. *)
Theorem never_set_field_is_None tc x w fields field :
  store_ok tc x w fields →
  absent (segments field) (PDict fields) →
  XctestRun.GetXctestrunField tc field (x, w) = (inr None, (x, w)) ∧
  XctestRun.HasXctestrunField tc field (x, w) = (inr false, (x, w)) ∧
  (∀ other v,
     walk (segments other) (PDict fields) = Some v →
     XctestRun.GetXctestrunField tc other (x, w) = (inr (Some v), (x, w)) ∧
     XctestRun.HasXctestrunField tc other (x, w) = (inr true, (x, w))).
Proof.
  intros Hok Habs. apply walk_None_absent in Habs.
  rewrite (GetXctestrunField_walk tc _ _ _ _ Hok),
    (HasXctestrunField_walk tc _ _ _ _ Hok), Habs.
  split; [done|]. split; [done|]. intros other v Hv.
  rewrite (GetXctestrunField_walk tc _ _ _ _ Hok),
    (HasXctestrunField_walk tc _ _ _ _ Hok), Hv.
  split; [done|]. by rewrite bool_decide_eq_true_2.
Qed.

Lemma never_set_field_is_None_witness :
  XctestRun.GetXctestrunField (Example.tc []) "UITargetAppPath"
    (Example.x, Example.stored) = (inr None, (Example.x, Example.stored)) ∧
  XctestRun.HasXctestrunField (Example.tc []) "UITargetAppPath"
    (Example.x, Example.stored) = (inr false, (Example.x, Example.stored)).
Proof.
  destruct (never_set_field_is_None (Example.tc []) Example.x Example.stored
              Example.fields "UITargetAppPath" example_store_ok)
    as (Hget & Hhas & _).
  - apply absent_key. reflexivity.
  - split; [exact Hget | exact Hhas].
Defined.

(** C3 as stated fails: resolving a field that was never set does not end
    in a lookup error. *)
Lemma never_set_field_no_lookup_error :
  absent (segments "UITargetAppPath") (PDict Example.fields) ∧
  (XctestRun.GetXctestrunField (Example.tc []) "UITargetAppPath"
     (Example.x, Example.stored)).1 ≠ inl PlistError.
Proof. split; [by apply absent_key | by vm_compute]. Qed.

(** C6: two calls of [SetTestEnvVars] in sequence merge: the mapping of
    [EnvironmentVariables] afterwards has the keys of the second call,
    those of the first call, and those it had before, in that order of
    precedence. *)
Theorem SetTestEnvVars_twice_merges tc x w fields
    (env1 env2 : gmap string string) :
  store_ok tc x w fields →
  mergeable fields "EnvironmentVariables" →
  ∃ w' fields',
    (XctestRun.SetTestEnvVars tc env1;; XctestRun.SetTestEnvVars tc env2)
      (x, w) = (inr (), (x, w')) ∧
    store_ok tc x w' fields' ∧
    mapping_of fields' "EnvironmentVariables"
      = (PString <$> env2) ∪ (PString <$> env1)
          ∪ mapping_of fields "EnvironmentVariables".
Proof.
  intros Hok Hm.
  destruct (SetTestEnvVars_merge tc x w fields env1 Hok Hm)
    as (w1 & fields1 & Hrun1 & Hok1 & Hm1 & Hmap1 & _).
  destruct (SetTestEnvVars_merge tc x w1 fields1 env2 Hok1 Hm1)
    as (w2 & fields2 & Hrun2 & Hok2 & _ & Hmap2 & _).
  exists w2, fields2. split; [|split; [done|]].
  - by rewrite (bind_inr _ _ _ _ _ Hrun1).
  - by rewrite Hmap2, Hmap1, (assoc_L (∪)).
Qed.

Lemma SetTestEnvVars_twice_merges_witness :
  ∃ w' fields',
    (XctestRun.SetTestEnvVars (Example.tc []) {["A" := "1"]};;
     XctestRun.SetTestEnvVars (Example.tc []) {["B" := "2"]})
      (Example.x, Example.stored) = (inr (), (Example.x, w')) ∧
    store_ok (Example.tc []) Example.x w' fields' ∧
    mapping_of fields' "EnvironmentVariables" !! "A" = Some (PString "1") ∧
    mapping_of fields' "EnvironmentVariables" !! "B" = Some (PString "2").
Proof.
  destruct (SetTestEnvVars_twice_merges (Example.tc []) Example.x
              Example.stored Example.fields {["A" := "1"]} {["B" := "2"]}
              example_store_ok)
    as (w' & fields' & Hrun & Hok & Hmap).
  - intros v Hv. vm_compute in Hv. discriminate.
  - exists w', fields'. rewrite Hmap.
    split; [exact Hrun|]. split; [exact Hok|]. split; reflexivity.
Defined.

(** C7: two calls of [SetTestArgs] with non-empty lists in sequence leave
    only the second list in [CommandLineArguments]. *)
Theorem SetTestArgs_twice_replaces tc x w fields (args1 args2 : list string) :
  store_ok tc x w fields →
  args1 ≠ [] → args2 ≠ [] →
  ∃ w',
    (XctestRun.SetTestArgs tc args1;; XctestRun.SetTestArgs tc args2) (x, w)
      = (inr (), (x, w')) ∧
    store_ok tc x w'
      (<["CommandLineArguments" := XctestRun.strings args2]> fields) ∧
    XctestRun.GetXctestrunField tc "CommandLineArguments" (x, w')
      = (inr (Some (XctestRun.strings args2)), (x, w')).
Proof.
  intros Hok H1 H2.
  destruct args1 as [|a1 l1]; [done|]. destruct args2 as [|a2 l2]; [done|].
  destruct (SetXctestrunField_key tc x w fields "CommandLineArguments"
              (XctestRun.strings (a1 :: l1)) Hok eq_refl)
    as (w1 & Hrun1 & Hok1 & _).
  destruct (SetXctestrunField_key tc x w1 _ "CommandLineArguments"
              (XctestRun.strings (a2 :: l2)) Hok1 eq_refl)
    as (w2 & Hrun2 & Hok2 & _).
  rewrite insert_insert_eq in Hok2.
  exists w2. split; [|split; [done|]].
  - unfold XctestRun.SetTestArgs. by rewrite (bind_inr _ _ _ _ _ Hrun1).
  - rewrite (GetXctestrunField_key tc x w2 _ "CommandLineArguments" Hok2 eq_refl).
    by rewrite lookup_insert_eq.
Qed.

Lemma SetTestArgs_twice_replaces_witness :
  ∃ w',
    (XctestRun.SetTestArgs (Example.tc []) ["x"];;
     XctestRun.SetTestArgs (Example.tc []) ["y"]) (Example.x, Example.stored)
      = (inr (), (Example.x, w')) ∧
    XctestRun.GetXctestrunField (Example.tc []) "CommandLineArguments"
      (Example.x, w') = (inr (Some (PArray [PString "y"])), (Example.x, w')).
Proof.
  destruct (SetTestArgs_twice_replaces (Example.tc []) Example.x
              Example.stored Example.fields ["x"] ["y"] example_store_ok)
    as (w' & Hrun & _ & Hget); [discriminate | discriminate |].
  exists w'. split; [exact Hrun | exact Hget].
Defined.

(** C8: without an explicit test type, the property [test_type] infers
    the UI-driven mode exactly when the document has a [UITargetAppPath]
    field and the non-UI mode otherwise; the value is stored in the object,
    and every later read returns it whatever the document then holds. *)
Theorem test_type_inferred_and_memoized tc x w fields :
  store_ok tc x w fields →
  XctestRun._test_type x = None →
  let inferred :=
    if bool_decide (is_Some (fields !! "UITargetAppPath"))
    then TestType.XCUITEST else TestType.XCTEST in
  ∃ x',
    XctestRun.test_type tc (x, w) = (inr (Some inferred), (x', w)) ∧
    ∀ w2, XctestRun.test_type tc (x', w2) = (inr (Some inferred), (x', w2)).
Proof.
  intros Hok Hnone inferred.
  exists (XctestRun.with_test_type (Some inferred) x).
  assert (walk (segments "UITargetAppPath") (PDict fields)
          = fields !! "UITargetAppPath") as Hwalk.
  { change (segments "UITargetAppPath") with ["UITargetAppPath"]. simpl.
    by destruct (fields !! "UITargetAppPath"). }
  split.
  - unfold XctestRun.test_type, mbind, M_bind, getself. simpl.
    rewrite Hnone. simpl.
    rewrite (HasXctestrunField_walk tc _ _ _ _ Hok), Hwalk.
    subst inferred. by destruct (bool_decide _).
  - intros w2. subst inferred. by destruct (bool_decide _).
Qed.

Lemma test_type_inferred_and_memoized_witness :
  ∃ x',
    XctestRun.test_type (Example.tc []) (Example.x, Example.stored)
      = (inr (Some TestType.XCTEST), (x', Example.stored)) ∧
    XctestRun.test_type (Example.tc []) (x', Example.inputs)
      = (inr (Some TestType.XCTEST), (x', Example.inputs)).
Proof.
  destruct (test_type_inferred_and_memoized (Example.tc []) Example.x
              Example.stored Example.fields example_store_ok eq_refl)
    as (x' & Hfirst & Hlater).
  exists x'. split; [exact Hfirst | exact (Hlater Example.inputs)].
Defined.

(** C10: when the test type of the object is not the UI-driven mode,
    [SetAppUnderTestArgs] writes the field that [SetTestArgs] writes.
    [SetTestArgs] with a non-empty list puts that list in
    [CommandLineArguments], where it is read back; [SetAppUnderTestArgs]
    with a non-empty list, called next, puts its own list in the same
    field, so the first list is lost: [CommandLineArguments] holds the
    second list only and no other field has changed. *)
Theorem SetAppUnderTestArgs_overwrites_test_args tc x w fields
    (args aut_args : list string) :
  store_ok tc x w fields →
  XctestRun._test_type x ≠ Some TestType.XCUITEST →
  args ≠ [] → aut_args ≠ [] →
  ∃ w1 w',
    XctestRun.SetTestArgs tc args (x, w) = (inr (), (x, w1)) ∧
    store_ok tc x w1 (<["CommandLineArguments" := XctestRun.strings args]> fields) ∧
    XctestRun.GetXctestrunField tc "CommandLineArguments" (x, w1)
      = (inr (Some (XctestRun.strings args)), (x, w1)) ∧
    XctestRun.SetAppUnderTestArgs tc aut_args (x, w1) = (inr (), (x, w')) ∧
    (XctestRun.SetTestArgs tc args;; XctestRun.SetAppUnderTestArgs tc aut_args)
      (x, w) = (inr (), (x, w')) ∧
    store_ok tc x w'
      (<["CommandLineArguments" := XctestRun.strings aut_args]> fields) ∧
    XctestRun.GetXctestrunField tc "CommandLineArguments" (x, w')
      = (inr (Some (XctestRun.strings aut_args)), (x, w')).
Proof.
  intros Hok Hty H1 H2.
  destruct args as [|a1 l1]; [done|].
  destruct aut_args as [|a2 l2]; [done|].
  destruct (SetXctestrunField_key tc x w fields "CommandLineArguments"
              (XctestRun.strings (a1 :: l1)) Hok eq_refl)
    as (w1 & Hrun1 & Hok1 & _).
  destruct (SetXctestrunField_key tc x w1 _ "CommandLineArguments"
              (XctestRun.strings (a2 :: l2)) Hok1 eq_refl)
    as (w2 & Hrun2 & Hok2 & _).
  rewrite insert_insert_eq in Hok2.
  assert (XctestRun.SetAppUnderTestArgs tc (a2 :: l2) (x, w1)
          = (inr (), (x, w2))) as Hsecond.
  { unfold XctestRun.SetAppUnderTestArgs.
    unfold mbind, M_bind, getself, opt_str_eqb. simpl.
    rewrite bool_decide_eq_false_2 by done. exact Hrun2. }
  exists w1, w2.
  split; [exact Hrun1|]. split; [exact Hok1|]. split.
  { rewrite (GetXctestrunField_key tc x w1 _ "CommandLineArguments" Hok1
               eq_refl).
    by rewrite lookup_insert_eq. }
  split; [exact Hsecond|]. split; [|split; [done|]].
  - assert (XctestRun.SetTestArgs tc (a1 :: l1) (x, w) = (inr (), (x, w1)))
      as Hfirst by exact Hrun1.
    by rewrite (bind_inr _ _ _ _ _ Hfirst).
  - rewrite (GetXctestrunField_key tc x w2 _ "CommandLineArguments" Hok2
               eq_refl).
    by rewrite lookup_insert_eq.
Qed.

Lemma SetAppUnderTestArgs_overwrites_test_args_witness :
  ∃ w1 w',
    XctestRun.SetTestArgs (Example.tc []) ["-test"]
      (Example.x, Example.stored) = (inr (), (Example.x, w1)) ∧
    XctestRun.GetXctestrunField (Example.tc []) "CommandLineArguments"
      (Example.x, w1) = (inr (Some (PArray [PString "-test"])), (Example.x, w1)) ∧
    XctestRun.SetAppUnderTestArgs (Example.tc []) ["-app"] (Example.x, w1)
      = (inr (), (Example.x, w')) ∧
    XctestRun.GetXctestrunField (Example.tc []) "CommandLineArguments"
      (Example.x, w') = (inr (Some (PArray [PString "-app"])), (Example.x, w')).
Proof.
  destruct (SetAppUnderTestArgs_overwrites_test_args (Example.tc [])
              Example.x Example.stored Example.fields ["-test"] ["-app"]
              example_store_ok)
    as (w1 & w' & Hfirst & _ & Hget1 & Hsecond & _ & _ & Hget);
    [discriminate | discriminate | discriminate |].
  exists w1, w'. split; [exact Hfirst|]. split; [exact Hget1|].
  split; [exact Hsecond | exact Hget].
Defined.

(** ** The constructor of the factory: claims C5 and C9 *)

(** C5: pairing the standalone logic-test mode with an SDK target that is
    not the simulator makes the constructor raise the invalid-argument
    error, and the file system is as it was. *)
Theorem logic_test_off_simulator_is_rejected app_under_test_dir
    test_bundle_dir sdk signing_options work_dir w :
  sdk ≠ SDK.IPHONESIMULATOR →
  ∃ w',
    XctestRunFactory.__init__ app_under_test_dir test_bundle_dir sdk
      TestType.LOGIC_TEST signing_options work_dir w
      = (inl IllegalArgumentError, w') ∧
    fs w' = fs w.
Proof.
  intros Hsdk.
  assert (String.eqb sdk SDK.IPHONESIMULATOR = false) as Hsim
    by by apply String.eqb_neq.
  unfold XctestRunFactory.__init__, XctestRunFactory._ValidateArguments.
  unfold mbind, M_bind, getself, setself, when_, io, logging_info, raise,
    mret, M_ret. simpl.
  destruct (String.eqb sdk SDK.IPHONEOS) eqn:Hos; simpl.
  - apply String.eqb_eq in Hos as ->. simpl. eauto.
  - destruct (XctestRunFactory.options_truthy signing_options); simpl;
      rewrite ?Hsim; simpl;
      destruct (str_in sdk SUPPORTED_SDKS); simpl; eauto.
Qed.

Lemma logic_test_off_simulator_is_rejected_witness :
  ∃ w',
    XctestRunFactory.__init__ None "/in/MyTests.xctest" SDK.IPHONEOS
      TestType.LOGIC_TEST None (Some "/work") Example.inputs
      = (inl IllegalArgumentError, w') ∧
    fs w' = fs Example.inputs.
Proof.
  apply (logic_test_off_simulator_is_rejected None "/in/MyTests.xctest"
           SDK.IPHONEOS None (Some "/work") Example.inputs).
  discriminate.
Defined.

(** What the constructor logs about the signing options off the device
    target: the message is written when no option was supplied, and
    nothing is written when some were. *)
Lemma signing_options_log app_under_test_dir test_bundle_dir sdk test_type
    signing_options work_dir w :
  sdk ≠ SDK.IPHONEOS →
  log (XctestRunFactory.__init__ app_under_test_dir test_bundle_dir sdk
         test_type signing_options work_dir w).2
  = if XctestRunFactory.options_truthy signing_options then log w
    else app (log w)
           ["INFO The signing options only works on sdk iphoneos, but current sdk is "
            ++ sdk].
Proof.
  intros Hsdk.
  assert (String.eqb sdk SDK.IPHONEOS = false) as Hos by by apply String.eqb_neq.
  unfold XctestRunFactory.__init__, XctestRunFactory._ValidateArguments.
  unfold mbind, M_bind, getself, setself, when_, io, logging_info, raise,
    mret, M_ret. simpl. rewrite Hos. simpl.
  destruct (XctestRunFactory.options_truthy signing_options); simpl;
    destruct (str_in sdk SUPPORTED_SDKS); simpl; try done;
    destruct (str_in test_type SUPPORTED_TEST_TYPES); simpl; try done;
    by destruct (_ && _).
Qed.

(** C9, the code at the failing input: with the simulator target and a
    signing option supplied, the constructor returns, stores empty signing
    options, and leaves the log as it was. *)
Lemma simulator_signing_options_not_logged :
  ∃ self,
    XctestRunFactory.__init__ (Some "/in/App.app") "/in/MyTests.xctest"
      SDK.IPHONESIMULATOR TestType.XCUITEST
      (Some {["xctrunner_app_provisioning_profile" := PString "profile"]})
      None Example.inputs
      = (inr self, Example.inputs) ∧
    XctestRunFactory._signing_options self = Some ∅.
Proof. eexists. split; [vm_compute; reflexivity | reflexivity]. Qed.

(** ** The scan for generated files: claim C2 *)

(** C2, the code at the failing input: when the build leaves two xctestrun
    files in the products directory, both pipelines take the first match
    and return an object, where a scan without a match is an error. *)
Lemma two_generated_files_are_accepted :
  length (Scan.matches Scan.two_files) = 2 ∧
  (∃ x, Scan.generate TestType.XCTEST Scan.two_files = Some (inr x) ∧
        XctestRun._root_key x = "First") ∧
  (∃ x, Scan.generate TestType.XCUITEST Scan.two_files = Some (inr x) ∧
        XctestRun._root_key x = "First") ∧
  Scan.generate TestType.XCTEST Scan.runner = Some (inl XctestrunError) ∧
  Scan.generate TestType.XCUITEST Scan.runner = Some (inl XctestrunError).
Proof.
  split; [by vm_compute|].
  split; [eexists; split; [vm_compute; reflexivity | reflexivity]|].
  split; [eexists; split; [vm_compute; reflexivity | reflexivity]|].
  split; by vm_compute.
Qed.

(** ** The portable file: claim C1 *)

(** C1, as amended: when [GenerateXctestrun] has generated the file, its
    text is the text that the pipeline of the test type left, with every
    occurrence of the path of [TEST_ROOT] in the work dir replaced by the
    token, from left to right; the replacement runs after the pipeline has
    set its fields.  When the work dir is an absolute path that does not
    contain the token, no occurrence of the path of [TEST_ROOT] is left in
    the file. *)
Theorem generated_file_has_root_replaced tc self w x self' w' :
  XctestRunFactory._xctestrun_obj self = None →
  XctestRunFactory.GenerateXctestrun tc (self, w) = (inr x, (self', w')) →
  ∃ work_dir path s1 text,
    let root := Py.join work_dir "TEST_ROOT" in
    XctestRunFactory._work_dir self' = Some work_dir ∧
    XctestRunFactory._test_root_dir self' = Some root ∧
    XctestRunFactory._xctestrun_file_path self' = Some path ∧
    (io (logging_info "Generating xctestrun file.");;
     XctestRunFactory.prepare tc;; XctestRunFactory.dispatch tc) (self, w)
      = (inr (), s1) ∧
    read_text tc path s1.2 = (inr text, s1.2) ∧
    read_text tc path w'
      = (inr (Py.replace root TESTROOT_RELATIVE_PATH text), w') ∧
    (Py.startswith "/" work_dir = true →
     Py.occurs TESTROOT_RELATIVE_PATH work_dir = false →
     Py.occurs root (Py.replace root TESTROOT_RELATIVE_PATH text) = false).
Proof.
  intros Hnone H. unfold XctestRunFactory.GenerateXctestrun in H.
  apply bind_inv in H as (self0 & s0 & [= <- <-] & H). rewrite Hnone in H.
  apply bind_inv in H as ([] & sl & Hlog & H).
  apply bind_inv in H as ([] & sp & Hprep & H).
  apply bind_inv in H as ([] & s1 & Hdisp & H).
  apply bind_inv in H as ([] & s2 & Hport & H).
  apply bind_inv in H as (self2 & s2' & [= <- <-] & H).
  apply unwrap_inv in H as [_ <-].
  destruct (prepare_dirs _ _ _ Hprep) as (work_dir & Hwd & Hroot).
  destruct (keeps_dispatch tc _ _ _ Hdisp) as [Hwd1 Hroot1].
  rewrite Hwd in Hwd1. rewrite Hroot in Hroot1.
  unfold XctestRunFactory.make_portable in Hport.
  apply bind_inv in Hport as (self1 & s1' & [= <- <-] & Hport).
  apply bind_inv in Hport as (path & s1' & Hpath & Hport).
  apply unwrap_inv in Hpath as [Hpath ->].
  apply bind_inv in Hport as (root & s1' & Hr & Hport).
  apply unwrap_inv in Hr as [Hr ->].
  rewrite Hroot1 in Hr. injection Hr as <-.
  apply bind_inv in Hport as (text & s1' & Hread & Hwrite).
  apply io_inv in Hread as (w1 & Hread & ->).
  pose proof (read_text_inv _ _ _ _ _ Hread) as ->.
  apply io_inv in Hwrite as (w2 & Hwrite & Heq). simpl in *.
  injection Heq as -> ->.
  exists work_dir, path, s1, text. simpl.
  split; [done|]. split; [done|]. split; [done|]. split.
  { rewrite (bind_inr _ _ _ _ _ Hlog), (bind_inr _ _ _ _ _ Hprep). done. }
  split; [done|]. split; [by eapply read_after_write|].
  intros Habs Htok. apply replace_leaves_none.
  by apply clean_replace_test_root.
Qed.

Lemma generated_file_has_root_replaced_witness :
  ∃ x self' w' text,
    XctestRunFactory.GenerateXctestrun (Example.tc [])
      (Example.logic_factory, Example.inputs) = (inr x, (self', w')) ∧
    read_text (Example.tc []) "/work/TEST_ROOT/xctestrun.plist" w'
      = (inr text, w') ∧
    Py.occurs "/work/TEST_ROOT" text = false.
Proof.
  assert (∃ x self' w',
            XctestRunFactory.GenerateXctestrun (Example.tc [])
              (Example.logic_factory, Example.inputs) = (inr x, (self', w')) ∧
            XctestRunFactory._work_dir self' = Some "/work" ∧
            XctestRunFactory._xctestrun_file_path self'
              = Some "/work/TEST_ROOT/xctestrun.plist")
    as (x & self' & w' & Hrun & Hwd & Hpath).
  { eexists _, _, _. split; [vm_compute; reflexivity|]. split; reflexivity. }
  destruct (generated_file_has_root_replaced (Example.tc [])
              Example.logic_factory Example.inputs x self' w' eq_refl Hrun)
    as (work_dir & path & s1 & text & Hwd' & _ & Hpath' & _ & _ & Hread & Hnone).
  rewrite Hwd in Hwd'. injection Hwd' as <-.
  rewrite Hpath in Hpath'. injection Hpath' as <-.
  exists x, self', w', (Py.replace (Py.join "/work" "TEST_ROOT")
                          TESTROOT_RELATIVE_PATH text).
  split; [exact Hrun|]. split; [exact Hread|].
  exact (Hnone eq_refl eq_refl).
Defined.

(** C1 as stated fails: a path below the work dir that is not below
    [TEST_ROOT], here one that the build wrote into the generated file,
    is still in the file when [GenerateXctestrun] has returned. *)
Lemma path_outside_TEST_ROOT_is_kept :
  ∃ x self' w' text,
    XctestRunFactory.GenerateXctestrun (Example.tc Example.derived)
      (Example.xctest_factory, Example.inputs) = (inr x, (self', w')) ∧
    XctestRunFactory._work_dir self' = Some "/work" ∧
    read_text (Example.tc Example.derived) "/work/TEST_ROOT/xctestrun.plist" w'
      = (inr text, w') ∧
    Py.occurs "/work/dummyproject_derived_data/" text = true.
Proof.
  eexists _, _, _, _. split; [vm_compute; reflexivity|].
  split; [reflexivity|]. split; [vm_compute; reflexivity|].
  vm_compute. reflexivity.
Qed.

(** Why the work dir has to be absolute and free of the token: with the
    token in the work dir, or with a relative work dir that ends the way
    the token does, the replacement itself can put the path of [TEST_ROOT]
    together again. *)
Lemma replace_can_rebuild_root :
  Py.occurs (Py.join "/a__TESTROOT__" "TEST_ROOT")
    (Py.replace (Py.join "/a__TESTROOT__" "TEST_ROOT") TESTROOT_RELATIVE_PATH
       "/a/a__TESTROOT__/TEST_ROOT/TEST_ROOT") = true ∧
  Py.occurs (Py.join "_" "TEST_ROOT")
    (Py.replace (Py.join "_" "TEST_ROOT") TESTROOT_RELATIVE_PATH
       "_/TEST_ROOT/TEST_ROOT") = true.
Proof. split; reflexivity. Qed.

(** ** The logic-test pipeline: claim C4 *)











(** * Further properties of the code *)

(** ** More facts about the store: writing, deleting and reading back *)

Lemma split_nonempty sep s : Py.split sep s ≠ [].
Proof.
  destruct s as [|c s]; [done|]. cbn [Py.split].
  destruct (Ascii.eqb c sep); [done|]. by destruct (Py.split sep s).
Qed.

Lemma update_dict keys value d obj' :
  update keys value (PDict d) = Some obj' → ∃ d', obj' = PDict d'.
Proof.
  destruct keys as [|k rest]; cbn [update]; intros H;
    repeat case_match; simplify_eq; eauto.
Qed.

(** What was written at a path is what the path resolves to. *)
Lemma walk_update keys value obj obj' :
  keys ≠ [] → update keys value obj = Some obj' → walk keys obj' = Some value.
Proof.
  revert obj obj'. induction keys as [|k rest IH]; [done|]. intros obj obj' _.
  destruct obj as [| | | |d]; try done. cbn [update walk].
  destruct rest as [|k' rest].
  - intros [= <-]. by rewrite lookup_insert_eq.
  - destruct (d !! k) as [sub|]; [|done].
    destruct (update (k' :: rest) value sub) as [sub'|] eqn:Hu; [|done].
    intros [= <-]. rewrite lookup_insert_eq. by eapply IH.
Qed.

(** Writing succeeds exactly when the path without its last segment
    resolves to a mapping. *)
Lemma update_is_Some keys value obj :
  keys ≠ [] →
  is_Some (update keys value obj) ↔
  ∃ d, walk (removelast keys) obj = Some (PDict d).
Proof.
  revert obj. induction keys as [|k rest IH]; [done|]. intros obj _.
  destruct rest as [|k' rest].
  - cbn [update removelast walk].
    split; intros [? H]; repeat case_match; simplify_eq; eauto.
  - change (removelast (k :: k' :: rest)) with (k :: removelast (k' :: rest)).
    change (update (k :: k' :: rest) value obj)
      with (match obj with
            | PDict d =>
                match d !! k with
                | Some sub =>
                    match update (k' :: rest) value sub with
                    | Some sub' => Some (PDict (<[k := sub']> d))
                    | None => None
                    end
                | None => None
                end
            | _ => None
            end).
    cbn [walk]. destruct obj as [| | | |d];
      try (split; intros [? H]; discriminate H).
    destruct (d !! k) as [sub|]; [|split; intros [? H]; discriminate H].
    rewrite <-(IH sub) by done.
    destruct (update (k' :: rest) value sub); split; eauto;
      try (intros [? H]; discriminate H).
Qed.

(** Writing leaves what lies below another first segment as it was. *)
Lemma walk_update_other keys value obj obj' k' rest' :
  update keys value obj = Some obj' →
  hd "" keys ≠ k' →
  walk (k' :: rest') obj' = walk (k' :: rest') obj.
Proof.
  destruct keys as [|k rest]; [done|]. destruct obj as [| | | |d]; try done.
  cbn [update walk hd]. intros Hu Hne.
  destruct rest as [|k2 rest].
  - injection Hu as <-. by rewrite lookup_insert_ne.
  - destruct (d !! k) as [sub|]; [|done].
    destruct (update (k2 :: rest) value sub); [|done].
    injection Hu as <-. by rewrite lookup_insert_ne.
Qed.

Lemma remove_dict keys d obj' :
  remove keys (PDict d) = Some obj' → ∃ d', obj' = PDict d'.
Proof.
  destruct keys as [|k rest]; cbn [remove]; intros H;
    repeat case_match; simplify_eq; eauto.
Qed.

(** What was deleted no longer resolves. *)
Lemma walk_remove keys obj obj' :
  remove keys obj = Some obj' → walk keys obj' = None.
Proof.
  revert obj obj'. induction keys as [|k rest IH]; [done|]. intros obj obj'.
  destruct obj as [| | | |d]; try done. cbn [remove walk].
  destruct (d !! k) as [sub|]; [|done]. destruct rest as [|k' rest].
  - intros [= <-]. by rewrite lookup_delete_eq.
  - destruct (remove (k' :: rest) sub) as [sub'|] eqn:Hr; [|done].
    intros [= <-]. rewrite lookup_insert_eq. by eapply IH.
Qed.

(** Deleting succeeds exactly when the path resolves. *)
Lemma remove_is_Some keys obj :
  keys ≠ [] → is_Some (remove keys obj) ↔ is_Some (walk keys obj).
Proof.
  revert obj. induction keys as [|k rest IH]; [done|]. intros obj _.
  destruct rest as [|k' rest].
  - cbn [remove walk].
    split; intros [? H]; repeat case_match; simplify_eq; eauto.
  - change (remove (k :: k' :: rest) obj)
      with (match obj with
            | PDict d =>
                match d !! k with
                | Some sub =>
                    match remove (k' :: rest) sub with
                    | Some sub' => Some (PDict (<[k := sub']> d))
                    | None => None
                    end
                | None => None
                end
            | _ => None
            end).
    change (walk (k :: k' :: rest) obj)
      with (match obj with
            | PDict d =>
                match d !! k with
                | Some sub => walk (k' :: rest) sub
                | None => None
                end
            | _ => None
            end).
    destruct obj as [| | | |d]; try (split; intros [? H]; discriminate H).
    destruct (d !! k) as [sub|]; [|split; intros [? H]; discriminate H].
    rewrite <-(IH sub) by done.
    destruct (remove (k' :: rest) sub); split; eauto;
      try (intros [? H]; discriminate H).
Qed.

Lemma walk_remove_other keys obj obj' k' rest' :
  remove keys obj = Some obj' →
  hd "" keys ≠ k' →
  walk (k' :: rest') obj' = walk (k' :: rest') obj.
Proof.
  destruct keys as [|k rest]; [done|]. destruct obj as [| | | |d]; try done.
  cbn [remove walk hd]. intros Hr Hne.
  destruct (d !! k) as [sub|]; [|done]. destruct rest as [|k2 rest].
  - injection Hr as <-. by rewrite lookup_delete_ne.
  - destruct (remove (k2 :: rest) sub); [|done].
    injection Hr as <-. by rewrite lookup_insert_ne.
Qed.

Lemma update_below k0 k rest value d :
  update (k0 :: k :: rest) value (PDict d)
  = match d !! k0 with
    | Some sub =>
        match update (k :: rest) value sub with
        | Some sub' => Some (PDict (<[k0 := sub']> d))
        | None => None
        end
    | None => None
    end.
Proof. reflexivity. Qed.

Lemma remove_below k0 k rest d :
  remove (k0 :: k :: rest) (PDict d)
  = match d !! k0 with
    | Some sub =>
        match remove (k :: rest) sub with
        | Some sub' => Some (PDict (<[k0 := sub']> d))
        | None => None
        end
    | None => None
    end.
Proof. reflexivity. Qed.

Section store_runs.
Context (tc : toolchain).

Lemma SetXctestrunField_ok x w fields field value fields' :
  store_ok tc x w fields →
  update (segments field) value (PDict fields) = Some (PDict fields') →
  ∃ w', XctestRun.SetXctestrunField tc field value (x, w) = (inr (), (x, w')) ∧
        store_ok tc x w' fields' ∧ log w' = log w.
Proof.
  intros Hok Hu. destruct (load_ok _ _ _ _ Hok) as (doc & Hl & Hr).
  destruct Hok as (Hc & c & doc0 & Hf & Hd & Hr0).
  unfold XctestRun.SetXctestrunField, SetPlistField, io, getself, getworld, dump.
  unfold mbind, M_bind, mret, M_ret, raise. simpl.
  unfold OS.present. rewrite Hf, Hl, (segments_rooted _ _ Hc).
  pose proof (split_nonempty ":" field) as Hne. unfold segments in Hu |- *.
  destruct (Py.split ":" field) as [|k rest]; [done|].
  rewrite update_below, Hr, Hu. simpl.
  eexists. split; [reflexivity|]. split; [|done].
  split; [done|]. eexists _, _. simpl. rewrite lookup_insert_eq.
  split; [done|]. split; [done|]. by rewrite lookup_insert_eq.
Qed.

Lemma SetXctestrunField_fail x w fields field value :
  store_ok tc x w fields →
  update (segments field) value (PDict fields) = None →
  XctestRun.SetXctestrunField tc field value (x, w) = (inl PlistError, (x, w)).
Proof.
  intros Hok Hu. destruct (load_ok _ _ _ _ Hok) as (doc & Hl & Hr).
  destruct Hok as (Hc & c & doc0 & Hf & Hd & Hr0).
  unfold XctestRun.SetXctestrunField, SetPlistField, io, getself, getworld, dump.
  unfold mbind, M_bind, mret, M_ret, raise. simpl.
  unfold OS.present. rewrite Hf, Hl, (segments_rooted _ _ Hc).
  pose proof (split_nonempty ":" field) as Hne. unfold segments in Hu |- *.
  destruct (Py.split ":" field) as [|k rest]; [done|].
  by rewrite update_below, Hr, Hu.
Qed.

Lemma DeleteXctestrunField_ok x w fields field fields' :
  store_ok tc x w fields →
  remove (segments field) (PDict fields) = Some (PDict fields') →
  ∃ w', XctestRun.DeleteXctestrunField tc field (x, w) = (inr (), (x, w')) ∧
        store_ok tc x w' fields' ∧ log w' = log w.
Proof.
  intros Hok Hu. destruct (load_ok _ _ _ _ Hok) as (doc & Hl & Hr).
  destruct Hok as (Hc & c & doc0 & Hf & Hd & Hr0).
  unfold XctestRun.DeleteXctestrunField, DeletePlistField, io, getself, dump.
  unfold mbind, M_bind, mret, M_ret, raise. simpl.
  rewrite Hl, (segments_rooted _ _ Hc).
  pose proof (split_nonempty ":" field) as Hne. unfold segments in Hu |- *.
  destruct (Py.split ":" field) as [|k rest]; [done|].
  rewrite remove_below, Hr, Hu. simpl.
  eexists. split; [reflexivity|]. split; [|done].
  split; [done|]. eexists _, _. simpl. rewrite lookup_insert_eq.
  split; [done|]. split; [done|]. by rewrite lookup_insert_eq.
Qed.

Lemma DeleteXctestrunField_fail x w fields field :
  store_ok tc x w fields →
  remove (segments field) (PDict fields) = None →
  XctestRun.DeleteXctestrunField tc field (x, w) = (inl PlistError, (x, w)).
Proof.
  intros Hok Hu. destruct (load_ok _ _ _ _ Hok) as (doc & Hl & Hr).
  destruct Hok as (Hc & c & doc0 & Hf & Hd & Hr0).
  unfold XctestRun.DeleteXctestrunField, DeletePlistField, io, getself, dump.
  unfold mbind, M_bind, mret, M_ret, raise. simpl.
  rewrite Hl, (segments_rooted _ _ Hc).
  pose proof (split_nonempty ":" field) as Hne. unfold segments in Hu |- *.
  destruct (Py.split ":" field) as [|k rest]; [done|].
  by rewrite remove_below, Hr, Hu.
Qed.

End store_runs.

(** ** The accessors of [XctestRun]: round trips and errors *)

(** X1: a field written with [SetXctestrunField] is read back unchanged by
    [GetXctestrunField], and [HasXctestrunField] is true for it, whenever
    the path without its last segment resolves to a mapping. *)
Theorem SetXctestrunField_then_Get tc x w fields field value d :
  store_ok tc x w fields →
  walk (removelast (segments field)) (PDict fields) = Some (PDict d) →
  ∃ w',
    XctestRun.SetXctestrunField tc field value (x, w) = (inr (), (x, w')) ∧
    XctestRun.GetXctestrunField tc field (x, w') = (inr (Some value), (x, w')) ∧
    XctestRun.HasXctestrunField tc field (x, w') = (inr true, (x, w')).
Proof.
  intros Hok Hparent.
  pose proof (split_nonempty ":" field) as Hne. fold (segments field) in Hne.
  destruct (proj2 (update_is_Some (segments field) value (PDict fields) Hne))
    as [obj' Hu]; [eauto|].
  destruct (update_dict _ _ _ _ Hu) as [fields' ->].
  destruct (SetXctestrunField_ok tc x w fields field value fields' Hok Hu)
    as (w' & Hset & Hok' & _).
  exists w'. split; [done|].
  rewrite (GetXctestrunField_walk tc _ _ _ _ Hok'),
    (HasXctestrunField_walk tc _ _ _ _ Hok'), (walk_update _ _ _ _ Hne Hu).
  split; [done|]. by rewrite bool_decide_eq_true_2.
Qed.

Lemma SetXctestrunField_then_Get_witness :
  ∃ w',
    XctestRun.SetXctestrunField (Example.tc []) "TestHostPath"
      (PString "/host") (Example.x, Example.stored) = (inr (), (Example.x, w')) ∧
    XctestRun.GetXctestrunField (Example.tc []) "TestHostPath" (Example.x, w')
      = (inr (Some (PString "/host")), (Example.x, w')).
Proof.
  destruct (SetXctestrunField_then_Get (Example.tc []) Example.x
              Example.stored Example.fields "TestHostPath" (PString "/host")
              Example.fields example_store_ok eq_refl)
    as (w' & Hset & Hget & _).
  exists w'. split; [exact Hset | exact Hget].
Defined.

(** X2: [SetXctestrunField] leaves every field below another first
    segment as it was. *)
Theorem SetXctestrunField_keeps_other_fields tc x w w' fields field value
    other :
  store_ok tc x w fields →
  XctestRun.SetXctestrunField tc field value (x, w) = (inr (), (x, w')) →
  hd "" (segments other) ≠ hd "" (segments field) →
  (XctestRun.GetXctestrunField tc other (x, w')).1
  = (XctestRun.GetXctestrunField tc other (x, w)).1.
Proof.
  intros Hok Hset Hne.
  destruct (update (segments field) value (PDict fields)) as [obj'|] eqn:Hu.
  - destruct (update_dict _ _ _ _ Hu) as [fields' ->].
    destruct (SetXctestrunField_ok tc x w fields field value fields' Hok Hu)
      as (w2 & Hset2 & Hok' & _).
    rewrite Hset in Hset2. injection Hset2 as <-.
    rewrite (GetXctestrunField_walk tc _ _ _ _ Hok'),
      (GetXctestrunField_walk tc _ _ _ _ Hok). simpl.
    pose proof (split_nonempty ":" other) as Hno.
    fold (segments other) in Hno.
    destruct (segments other) as [|k' rest']; [done|].
    f_equal. eapply walk_update_other; [done|]. by apply not_eq_sym.
  - rewrite (SetXctestrunField_fail tc x w fields field value Hok Hu) in Hset.
    discriminate.
Qed.

Lemma SetXctestrunField_keeps_other_fields_witness :
  ∃ w',
    XctestRun.SetXctestrunField (Example.tc []) "TestHostPath"
      (PString "/host") (Example.x, Example.stored) = (inr (), (Example.x, w')) ∧
    (XctestRun.GetXctestrunField (Example.tc []) "TestBundlePath"
       (Example.x, w')).1 = inr (Some (PString "__TESTROOT__/MyTests.xctest")).
Proof.
  assert (∃ w', XctestRun.SetXctestrunField (Example.tc []) "TestHostPath"
                  (PString "/host") (Example.x, Example.stored)
                = (inr (), (Example.x, w'))) as [w' Hset]
    by (eexists; vm_compute; reflexivity).
  exists w'. split; [exact Hset|].
  rewrite (SetXctestrunField_keeps_other_fields (Example.tc []) Example.x
             Example.stored w' Example.fields "TestHostPath" (PString "/host")
             "TestBundlePath" example_store_ok Hset); [reflexivity|].
  discriminate.
Defined.

(** X3: [SetXctestrunField] does not create intermediate mappings: when
    the path without its last segment does not resolve to a mapping, it
    raises the lookup error and the file is as it was. *)
Theorem SetXctestrunField_needs_parent tc x w fields field value :
  store_ok tc x w fields →
  (∀ d, walk (removelast (segments field)) (PDict fields) ≠ Some (PDict d)) →
  XctestRun.SetXctestrunField tc field value (x, w) = (inl PlistError, (x, w)).
Proof.
  intros Hok Hparent. apply (SetXctestrunField_fail tc x w fields); [done|].
  pose proof (split_nonempty ":" field) as Hne. fold (segments field) in Hne.
  destruct (update (segments field) value (PDict fields)) as [obj'|] eqn:Hu;
    [|done].
  destruct (proj1 (update_is_Some (segments field) value (PDict fields) Hne))
    as [d Hd]; [by rewrite Hu|]. by destruct (Hparent d).
Qed.

Lemma SetXctestrunField_needs_parent_witness :
  XctestRun.SetXctestrunField (Example.tc [])
    "TestingEnvironmentVariables:DYLD_LIBRARY_PATH" (PString "/lib")
    (Example.x, Example.stored) = (inl PlistError, (Example.x, Example.stored)).
Proof.
  apply (SetXctestrunField_needs_parent (Example.tc []) Example.x
           Example.stored Example.fields); [exact example_store_ok|].
  intros d. discriminate.
Defined.

(** X4: [DeleteXctestrunField] of a field that [HasXctestrunField] finds
    returns, and afterwards the field is gone: [GetXctestrunField] gives
    [None] and [HasXctestrunField] false. *)
Theorem DeleteXctestrunField_then_Get tc x w fields field :
  store_ok tc x w fields →
  XctestRun.HasXctestrunField tc field (x, w) = (inr true, (x, w)) →
  ∃ w',
    XctestRun.DeleteXctestrunField tc field (x, w) = (inr (), (x, w')) ∧
    XctestRun.GetXctestrunField tc field (x, w') = (inr None, (x, w')) ∧
    XctestRun.HasXctestrunField tc field (x, w') = (inr false, (x, w')).
Proof.
  intros Hok Hhas. rewrite (HasXctestrunField_walk tc _ _ _ _ Hok) in Hhas.
  injection Hhas as Hhas. apply bool_decide_eq_true_1 in Hhas.
  pose proof (split_nonempty ":" field) as Hne. fold (segments field) in Hne.
  apply (remove_is_Some _ _ Hne) in Hhas as [obj' Hr].
  destruct (remove_dict _ _ _ Hr) as [fields' ->].
  destruct (DeleteXctestrunField_ok tc x w fields field fields' Hok Hr)
    as (w' & Hdel & Hok' & _).
  exists w'. split; [done|].
  rewrite (GetXctestrunField_walk tc _ _ _ _ Hok'),
    (HasXctestrunField_walk tc _ _ _ _ Hok'), (walk_remove _ _ _ Hr).
  split; [done|]. rewrite bool_decide_eq_false_2; [done|]. by intros [? ?].
Qed.

Lemma DeleteXctestrunField_then_Get_witness :
  ∃ w',
    XctestRun.DeleteXctestrunField (Example.tc []) "TestBundlePath"
      (Example.x, Example.stored) = (inr (), (Example.x, w')) ∧
    XctestRun.GetXctestrunField (Example.tc []) "TestBundlePath"
      (Example.x, w') = (inr None, (Example.x, w')).
Proof.
  destruct (DeleteXctestrunField_then_Get (Example.tc []) Example.x
              Example.stored Example.fields "TestBundlePath"
              example_store_ok)
    as (w' & Hdel & Hget & _).
  - vm_compute. reflexivity.
  - exists w'. split; [exact Hdel | exact Hget].
Defined.

(** X5: [DeleteXctestrunField] of a field that [HasXctestrunField] does
    not find raises the lookup error, and the file is as it was. *)
Theorem DeleteXctestrunField_absent tc x w fields field :
  store_ok tc x w fields →
  XctestRun.HasXctestrunField tc field (x, w) = (inr false, (x, w)) →
  XctestRun.DeleteXctestrunField tc field (x, w) = (inl PlistError, (x, w)).
Proof.
  intros Hok Hhas. rewrite (HasXctestrunField_walk tc _ _ _ _ Hok) in Hhas.
  injection Hhas as Hhas. apply bool_decide_eq_false_1 in Hhas.
  pose proof (split_nonempty ":" field) as Hne. fold (segments field) in Hne.
  apply (DeleteXctestrunField_fail tc x w fields); [done|].
  destruct (remove (segments field) (PDict fields)) as [obj'|] eqn:Hr; [|done].
  destruct Hhas. apply (remove_is_Some _ _ Hne). by rewrite Hr.
Qed.

Lemma DeleteXctestrunField_absent_witness :
  XctestRun.DeleteXctestrunField (Example.tc [])
    "TestingEnvironmentVariables:IDEiPhoneInternalTestBundleName"
    (Example.x, Example.stored) = (inl PlistError, (Example.x, Example.stored)).
Proof.
  apply (DeleteXctestrunField_absent (Example.tc []) Example.x Example.stored
           Example.fields); [exact example_store_ok|].
  vm_compute. reflexivity.
Defined.

(** ** The setters of [XctestRun] *)

(** The first read of [test_type] on an object made without one. *)
Lemma test_type_inferred_memo tc x w fields :
  store_ok tc x w fields →
  XctestRun._test_type x = None →
  let inferred :=
    if bool_decide (is_Some (fields !! "UITargetAppPath"))
    then TestType.XCUITEST else TestType.XCTEST in
  ∃ x',
    XctestRun.test_type tc (x, w) = (inr (Some inferred), (x', w)) ∧
    x' = XctestRun.with_test_type (Some inferred) x.
Proof.
  intros Hok Hnone inferred.
  exists (XctestRun.with_test_type (Some inferred) x). split; [|done].
  assert (walk (segments "UITargetAppPath") (PDict fields)
          = fields !! "UITargetAppPath") as Hwalk.
  { change (segments "UITargetAppPath") with ["UITargetAppPath"]. simpl.
    by destruct (fields !! "UITargetAppPath"). }
  unfold XctestRun.test_type, mbind, M_bind, getself. simpl.
  rewrite Hnone. simpl.
  rewrite (HasXctestrunField_walk tc _ _ _ _ Hok), Hwalk.
  subst inferred. by destruct (bool_decide _).
Qed.

Lemma mapping_or_empty fields key :
  mergeable fields key →
  match fields !! key with
  | Some v => if truthy v then v else PDict ∅
  | None => PDict ∅
  end = PDict (mapping_of fields key).
Proof.
  intros Hm. unfold mapping_of.
  destruct (fields !! key) as [v|] eqn:Hf; [|done].
  destruct (truthy v) eqn:Ht.
  - by destruct (Hm v Hf Ht) as [e ->].
  - destruct v as [ | | | |e]; try done. simpl in Ht.
    apply negb_false_iff, dict_is_empty_true in Ht. by subst.
Qed.

(** X6: [SetAppUnderTestEnvVars] merges the variables into the mapping of
    [UITargetAppEnvironmentVariables] when the test type of the object is
    the UI-driven one, and into that of [EnvironmentVariables] otherwise;
    the variables given win over those already there, and no other field
    changes. *)
Theorem SetAppUnderTestEnvVars_merges tc x w fields
    (env_vars : gmap string string) :
  let key := if bool_decide (XctestRun._test_type x = Some TestType.XCUITEST)
             then "UITargetAppEnvironmentVariables"
             else "EnvironmentVariables" in
  store_ok tc x w fields →
  mergeable fields key →
  ∃ w' fields',
    XctestRun.SetAppUnderTestEnvVars tc env_vars (x, w) = (inr (), (x, w')) ∧
    store_ok tc x w' fields' ∧
    mapping_of fields' key = (PString <$> env_vars) ∪ mapping_of fields key ∧
    (∀ other, other ≠ key → fields' !! other = fields !! other).
Proof.
  intros key Hok Hm. unfold XctestRun.SetAppUnderTestEnvVars.
  destruct (dict_is_empty env_vars) eqn:He.
  - apply dict_is_empty_true in He as ->. exists w, fields.
    rewrite fmap_empty, (left_id_L ∅ (∪)). done.
  - assert (Py.has_char ":" key = false) as Hkey
      by (subst key; by destruct (bool_decide _)).
    rewrite bind_getself. cbn [fst]. unfold opt_str_eqb. fold key.
    rewrite (bind_inr _ _ _ _ _ (GetXctestrunField_key tc x w fields key Hok Hkey)).
    rewrite (mapping_or_empty _ _ Hm).
    rewrite (bind_inr _ _ _ _ _
               (assign_items_merge env_vars (mapping_of fields key) (x, w))).
    destruct (SetXctestrunField_key tc x w fields key
                (PDict ((PString <$> env_vars) ∪ mapping_of fields key))
                Hok Hkey) as (w' & Hset & Hok' & _).
    exists w', (<[key := PDict ((PString <$> env_vars) ∪ mapping_of fields key)]>
                  fields).
    split; [done|]. split; [done|]. split.
    + unfold mapping_of at 1. by rewrite lookup_insert_eq.
    + intros other Hne. by rewrite lookup_insert_ne.
Qed.

Lemma SetAppUnderTestEnvVars_merges_witness :
  ∃ w' fields',
    XctestRun.SetAppUnderTestEnvVars (Example.tc []) {["A" := "1"]}
      (Example.x, Example.stored) = (inr (), (Example.x, w')) ∧
    store_ok (Example.tc []) Example.x w' fields' ∧
    mapping_of fields' "EnvironmentVariables" !! "A" = Some (PString "1").
Proof.
  destruct (SetAppUnderTestEnvVars_merges (Example.tc []) Example.x
              Example.stored Example.fields {["A" := "1"]} example_store_ok)
    as (w' & fields' & Hrun & Hok & Hmap & _).
  - intros v Hv. vm_compute in Hv. discriminate.
  - exists w', fields'. split; [exact Hrun|]. split; [exact Hok|].
    cbn [bool_decide] in Hmap.
    change (mapping_of fields' "EnvironmentVariables"
            = (PString <$> {["A" := "1"]})
                ∪ mapping_of Example.fields "EnvironmentVariables") in Hmap.
    rewrite Hmap. reflexivity.
Defined.

(** X7: when the test type of the object is the UI-driven one, the
    arguments of the test and those of the app under test go to different
    fields: after [SetTestArgs] and [SetAppUnderTestArgs], both with
    non-empty lists, each list is in its own field. *)
Theorem SetAppUnderTestArgs_own_field_in_UI_mode tc x w fields
    (args aut_args : list string) :
  store_ok tc x w fields →
  XctestRun._test_type x = Some TestType.XCUITEST →
  args ≠ [] → aut_args ≠ [] →
  ∃ w',
    (XctestRun.SetTestArgs tc args;; XctestRun.SetAppUnderTestArgs tc aut_args)
      (x, w) = (inr (), (x, w')) ∧
    store_ok tc x w'
      (<["UITargetAppCommandLineArguments" := XctestRun.strings aut_args]>
         (<["CommandLineArguments" := XctestRun.strings args]> fields)).
Proof.
  intros Hok Hty H1 H2.
  destruct args as [|a1 l1]; [done|].
  destruct aut_args as [|a2 l2]; [done|].
  destruct (SetXctestrunField_key tc x w fields "CommandLineArguments"
              (XctestRun.strings (a1 :: l1)) Hok eq_refl)
    as (w1 & Hrun1 & Hok1 & _).
  destruct (SetXctestrunField_key tc x w1 _ "UITargetAppCommandLineArguments"
              (XctestRun.strings (a2 :: l2)) Hok1 eq_refl)
    as (w2 & Hrun2 & Hok2 & _).
  exists w2. split; [|done].
  unfold XctestRun.SetTestArgs, XctestRun.SetAppUnderTestArgs.
  rewrite (bind_inr _ _ _ _ _ Hrun1), bind_getself. cbn [fst].
  unfold opt_str_eqb. by rewrite Hty, bool_decide_eq_true_2.
Qed.

Lemma SetAppUnderTestArgs_own_field_in_UI_mode_witness :
  ∃ w',
    (XctestRun.SetTestArgs (Example.tc []) ["-test"];;
     XctestRun.SetAppUnderTestArgs (Example.tc []) ["-app"])
      (XctestRun.with_test_type (Some TestType.XCUITEST) Example.x,
       Example.stored)
    = (inr (), (XctestRun.with_test_type (Some TestType.XCUITEST) Example.x, w')).
Proof.
  destruct (SetAppUnderTestArgs_own_field_in_UI_mode (Example.tc [])
              (XctestRun.with_test_type (Some TestType.XCUITEST) Example.x)
              Example.stored Example.fields ["-test"] ["-app"])
    as (w' & Hrun & _).
  - exact example_store_ok.
  - reflexivity.
  - discriminate.
  - discriminate.
  - exists w'. exact Hrun.
Defined.

(** X8: [SetTestEnvVars] with variables to set raises a type error, and
    writes nothing, when [EnvironmentVariables] holds a non-empty value
    that is not a mapping. *)
Theorem SetTestEnvVars_on_non_mapping tc x w fields
    (env_vars : gmap string string) v :
  store_ok tc x w fields →
  env_vars ≠ ∅ →
  fields !! "EnvironmentVariables" = Some v →
  truthy v = true →
  (∀ e, v ≠ PDict e) →
  XctestRun.SetTestEnvVars tc env_vars (x, w) = (inl TypeError, (x, w)).
Proof.
  intros Hok Hne Hf Ht Hv. unfold XctestRun.SetTestEnvVars.
  destruct (dict_is_empty env_vars) eqn:He;
    [by apply dict_is_empty_true in He|].
  rewrite (bind_inr _ _ _ _ _
             (GetXctestrunField_key tc x w fields "EnvironmentVariables"
                Hok eq_refl)).
  rewrite Hf, Ht. destruct v as [| | | |e]; try done. by destruct (Hv e).
Qed.

Lemma SetTestEnvVars_on_non_mapping_witness :
  XctestRun.SetTestEnvVars (Example.tc []) {["A" := "1"]}
    (XctestRun.Obj "/run/xctestrun.plist"
       {| _plist_file_path := "/run/xctestrun.plist" |} "MyTests" None,
     World {["/run/xctestrun.plist" := NFile (Serialized (PDict
              {["MyTests" := PDict {["EnvironmentVariables" :=
                 PArray [PString "A=1"]]}]}))]} [] 0)
  = (inl TypeError,
     (XctestRun.Obj "/run/xctestrun.plist"
       {| _plist_file_path := "/run/xctestrun.plist" |} "MyTests" None,
     World {["/run/xctestrun.plist" := NFile (Serialized (PDict
              {["MyTests" := PDict {["EnvironmentVariables" :=
                 PArray [PString "A=1"]]}]}))]} [] 0)).
Proof.
  apply (SetTestEnvVars_on_non_mapping (Example.tc []) _ _
           {["EnvironmentVariables" := PArray [PString "A=1"]]}
           {["A" := "1"]} (PArray [PString "A=1"])).
  - split; [reflexivity|]. eexists _, _.
    split; [reflexivity|]. split; reflexivity.
  - intros H. apply (f_equal (λ m, m !! "A")) in H. discriminate.
  - reflexivity.
  - reflexivity.
  - discriminate.
Defined.

(** X9: [SetTestsToRun] writes [OnlyTestIdentifiers] unless the selection
    is empty or is the one-element list [all], and [SetSkipTests] writes
    [SkipTestIdentifiers] unless the list is empty; the two are different
    fields, so one call after the other keeps both, and a call that writes
    nothing leaves the file as it was. *)
Theorem test_selection_fields tc x w fields (tests_to_run skip_tests : list string) :
  store_ok tc x w fields →
  let selected :=
    if bool_decide (tests_to_run = []) || bool_decide (tests_to_run = ["all"])
    then fields
    else <["OnlyTestIdentifiers" := XctestRun.strings tests_to_run]> fields in
  let skipped :=
    if bool_decide (skip_tests = []) then selected
    else <["SkipTestIdentifiers" := XctestRun.strings skip_tests]> selected in
  ∃ w',
    (XctestRun.SetTestsToRun tc tests_to_run;;
     XctestRun.SetSkipTests tc skip_tests) (x, w) = (inr (), (x, w')) ∧
    store_ok tc x w' skipped ∧
    (tests_to_run = [] ∨ tests_to_run = ["all"] → skip_tests = [] → w' = w).
Proof.
  intros Hok selected skipped.
  assert (∃ w1, XctestRun.SetTestsToRun tc tests_to_run (x, w)
                = (inr (), (x, w1)) ∧ store_ok tc x w1 selected ∧
                (bool_decide (tests_to_run = [])
                 || bool_decide (tests_to_run = ["all"]) = true → w1 = w))
    as (w1 & Hrun1 & Hok1 & Hsame1).
  { unfold XctestRun.SetTestsToRun. subst selected.
    destruct (bool_decide (tests_to_run = []) || bool_decide (tests_to_run = ["all"])).
    - by exists w.
    - destruct (SetXctestrunField_key tc x w fields "OnlyTestIdentifiers"
                  (XctestRun.strings tests_to_run) Hok eq_refl)
        as (w1 & Hrun & Hok1 & _).
      exists w1. done. }
  assert (∃ w2, XctestRun.SetSkipTests tc skip_tests (x, w1)
                = (inr (), (x, w2)) ∧ store_ok tc x w2 skipped ∧
                (skip_tests = [] → w2 = w1))
    as (w2 & Hrun2 & Hok2 & Hsame2).
  { unfold XctestRun.SetSkipTests. subst skipped.
    destruct skip_tests as [|s l].
    - by exists w1.
    - rewrite bool_decide_eq_false_2 by done.
      destruct (SetXctestrunField_key tc x w1 selected "SkipTestIdentifiers"
                  (XctestRun.strings (s :: l)) Hok1 eq_refl)
        as (w2 & Hrun & Hok2 & _).
      exists w2. done. }
  exists w2. split; [by rewrite (bind_inr _ _ _ _ _ Hrun1)|]. split; [done|].
  intros Hts Hss. rewrite (Hsame2 Hss). apply Hsame1.
  destruct Hts as [-> | ->]; reflexivity.
Qed.

Lemma test_selection_fields_witness :
  ∃ w',
    (XctestRun.SetTestsToRun (Example.tc []) ["MyTests/testA"];;
     XctestRun.SetSkipTests (Example.tc []) ["MyTests/testB"])
      (Example.x, Example.stored) = (inr (), (Example.x, w')) ∧
    store_ok (Example.tc []) Example.x w'
      (<["SkipTestIdentifiers" := PArray [PString "MyTests/testB"]]>
         (<["OnlyTestIdentifiers" := PArray [PString "MyTests/testA"]]>
            Example.fields)).
Proof.
  destruct (test_selection_fields (Example.tc []) Example.x Example.stored
              Example.fields ["MyTests/testA"] ["MyTests/testB"]
              example_store_ok)
    as (w' & Hrun & Hok & _).
  exists w'. split; [exact Hrun | exact Hok].
Defined.

(** X10: [SetAppUnderTestArgs] looks at the test type stored in the
    object, not at the property: on an object made without a test type,
    for a document with a [UITargetAppPath], it writes
    [CommandLineArguments] as long as [test_type] has not been read, and
    [UITargetAppCommandLineArguments] once it has. *)
Theorem SetAppUnderTestArgs_before_and_after_test_type tc x w fields
    (aut_args : list string) :
  store_ok tc x w fields →
  XctestRun._test_type x = None →
  is_Some (fields !! "UITargetAppPath") →
  aut_args ≠ [] →
  (∃ w',
     XctestRun.SetAppUnderTestArgs tc aut_args (x, w) = (inr (), (x, w')) ∧
     store_ok tc x w'
       (<["CommandLineArguments" := XctestRun.strings aut_args]> fields)) ∧
  (∃ x' w',
     (XctestRun.test_type tc;; XctestRun.SetAppUnderTestArgs tc aut_args)
       (x, w) = (inr (), (x', w')) ∧
     XctestRun._test_type x' = Some TestType.XCUITEST ∧
     store_ok tc x' w'
       (<["UITargetAppCommandLineArguments" := XctestRun.strings aut_args]>
          fields)).
Proof.
  intros Hok Hnone Hui Hargs. destruct aut_args as [|a l]; [done|]. split.
  - destruct (SetXctestrunField_key tc x w fields "CommandLineArguments"
                (XctestRun.strings (a :: l)) Hok eq_refl)
      as (w' & Hrun & Hok' & _).
    exists w'. split; [|done].
    unfold XctestRun.SetAppUnderTestArgs. rewrite bind_getself. cbn [fst].
    unfold opt_str_eqb. by rewrite Hnone.
  - destruct (test_type_inferred_memo tc x w fields Hok Hnone)
      as (x' & Hfirst & Hx').
    rewrite bool_decide_eq_true_2 in Hfirst, Hx' by done.
    assert (store_ok tc x' w fields) as Hok1.
    { subst x'. exact Hok. }
    destruct (SetXctestrunField_key tc x' w fields
                "UITargetAppCommandLineArguments"
                (XctestRun.strings (a :: l)) Hok1 eq_refl)
      as (w' & Hrun & Hok' & _).
    exists x', w'. split; [|split; [by subst x'|done]].
    rewrite (bind_inr _ _ _ _ _ Hfirst).
    unfold XctestRun.SetAppUnderTestArgs. rewrite bind_getself. cbn [fst].
    unfold opt_str_eqb. subst x'. exact Hrun.
Qed.

Lemma SetAppUnderTestArgs_before_and_after_test_type_witness :
  let w := World {["/run/xctestrun.plist" := NFile (Serialized (PDict
              {["MyTests" := PDict {["UITargetAppPath" :=
                 PString "__TESTROOT__/App.app"]}]}))]} [] 0 in
  (∃ w', XctestRun.SetAppUnderTestArgs (Example.tc []) ["-app"] (Example.x, w)
         = (inr (), (Example.x, w'))) ∧
  (∃ x' w',
     (XctestRun.test_type (Example.tc []);;
      XctestRun.SetAppUnderTestArgs (Example.tc []) ["-app"]) (Example.x, w)
       = (inr (), (x', w')) ∧
     XctestRun._test_type x' = Some TestType.XCUITEST).
Proof.
  intros w.
  destruct (SetAppUnderTestArgs_before_and_after_test_type (Example.tc [])
              Example.x w
              {["UITargetAppPath" := PString "__TESTROOT__/App.app"]} ["-app"])
    as [(w1 & H1 & _) (x2 & w2 & H2 & Hty & _)].
  - split; [reflexivity|]. eexists _, _.
    split; [reflexivity|]. split; reflexivity.
  - reflexivity.
  - eexists. reflexivity.
  - discriminate.
  - split; [by exists w1 | by exists x2, w2].
Defined.

(** X11: the constructor of [XctestRun] takes the root key from the
    document and leaves the file alone: with an empty document it raises
    an index error; otherwise the key it stores is a key of the document,
    and for a document with one key it is that key. *)
Theorem XctestRun_init_root_key tc path test_type w c d :
  fs w !! path = Some (NFile c) →
  file_doc tc c = Some (PDict d) →
  (d = ∅ → XctestRun.__init__ tc path test_type w = (inl IndexError, w)) ∧
  (d ≠ ∅ →
   ∃ key, XctestRun.__init__ tc path test_type w
          = (inr (XctestRun.Obj path {| _plist_file_path := path |} key
                    test_type), w) ∧
          is_Some (d !! key)) ∧
  (∀ key v, d = {[key := v]} →
     XctestRun.__init__ tc path test_type w
     = (inr (XctestRun.Obj path {| _plist_file_path := path |} key test_type),
        w)).
Proof.
  intros Hf Hd.
  assert (XctestRun.__init__ tc path test_type w
          = match (map_to_list d).*1 with
            | key :: _ =>
                (inr (XctestRun.Obj path {| _plist_file_path := path |} key
                        test_type), w)
            | [] => (inl IndexError, w)
            end) as ->.
  { unfold XctestRun.__init__, GetPlistField, load, mbind, M_bind, mret, M_ret.
    simpl. rewrite Hf, Hd. by destruct ((map_to_list d).*1). }
  split; [|split].
  - intros ->. by rewrite map_to_list_empty.
  - intros Hne. destruct (map_to_list d) as [|[k v] l] eqn:Hl.
    + by apply map_to_list_empty_iff in Hl.
    + exists k. split; [done|]. exists v. apply elem_of_map_to_list.
      rewrite Hl. by left.
  - intros key v ->. by rewrite map_to_list_singleton.
Qed.

Lemma XctestRun_init_root_key_witness :
  XctestRun.__init__ (Example.tc []) "/run/xctestrun.plist" None Example.stored
  = (inr Example.x, Example.stored).
Proof.
  destruct (XctestRun_init_root_key (Example.tc []) "/run/xctestrun.plist"
              None Example.stored
              (Serialized (PDict {["MyTests" := PDict Example.fields]}))
              {["MyTests" := PDict Example.fields]} eq_refl eq_refl)
    as (_ & _ & H).
  exact (H "MyTests" (PDict Example.fields) eq_refl).
Defined.

(** ** The constructor of the factory *)

(** X12: the constructor returns for a supported SDK and a supported test
    type, unless the test type is the logic test and the SDK is not the
    simulator; the object has the arguments as given, the signing options
    only for the device SDK and empty ones otherwise, no xctestrun object
    yet and no work dir of its own; the file system is as it was. *)
Theorem constructor_accepts app_under_test_dir test_bundle_dir sdk test_type
    signing_options work_dir w :
  sdk ∈ SUPPORTED_SDKS →
  test_type ∈ SUPPORTED_TEST_TYPES →
  (test_type = TestType.LOGIC_TEST → sdk = SDK.IPHONESIMULATOR) →
  ∃ w',
    XctestRunFactory.__init__ app_under_test_dir test_bundle_dir sdk test_type
      signing_options work_dir w
    = (inr (XctestRunFactory.Obj app_under_test_dir test_bundle_dir
              (Py.splitext_root (Py.basename test_bundle_dir)) sdk test_type
              (if decide (sdk = SDK.IPHONEOS) then signing_options else Some ∅)
              work_dir None None None false), w') ∧
    fs w' = fs w.
Proof.
  intros Hsdk Htt Hlogic.
  unfold XctestRunFactory.__init__, XctestRunFactory._ValidateArguments.
  unfold mbind, M_bind, getself, setself, when_, io, logging_info, raise,
    mret, M_ret, str_in. simpl.
  assert (String.eqb test_type TestType.LOGIC_TEST
          && negb (String.eqb sdk SDK.IPHONESIMULATOR) = false) as Hpair.
  { destruct (String.eqb test_type TestType.LOGIC_TEST) eqn:He; [|done].
    apply String.eqb_eq in He. rewrite (Hlogic He). done. }
  destruct (decide (sdk = SDK.IPHONEOS)) as [->|Hne].
  - simpl. rewrite (bool_decide_eq_true_2 _ Htt). simpl in *.
    rewrite Hpair. eauto.
  - assert (String.eqb sdk SDK.IPHONEOS = false) as ->
      by by apply String.eqb_neq.
    destruct (XctestRunFactory.options_truthy signing_options); simpl;
      rewrite (bool_decide_eq_true_2 _ Hsdk), (bool_decide_eq_true_2 _ Htt);
      simpl; rewrite Hpair; eauto.
Qed.

Lemma constructor_accepts_witness :
  ∃ w',
    XctestRunFactory.__init__ (Some "/in/App.app") "/in/MyTests.xctest"
      SDK.IPHONEOS TestType.XCUITEST
      (Some {["xctrunner_app_provisioning_profile" := PString "profile"]})
      None Example.inputs
    = (inr (XctestRunFactory.Obj (Some "/in/App.app") "/in/MyTests.xctest"
              "MyTests" SDK.IPHONEOS TestType.XCUITEST
              (Some {["xctrunner_app_provisioning_profile" := PString "profile"]})
              None None None None false), w') ∧
    fs w' = fs Example.inputs.
Proof.
  apply (constructor_accepts (Some "/in/App.app") "/in/MyTests.xctest"
           SDK.IPHONEOS TestType.XCUITEST
           (Some {["xctrunner_app_provisioning_profile" := PString "profile"]})
           None Example.inputs).
  - apply (bool_decide_unpack _). by vm_compute.
  - apply (bool_decide_unpack _). by vm_compute.
  - discriminate.
Defined.

(** X13: the constructor raises the invalid-argument error, with the file
    system as it was, for an SDK that is not supported and for a test type
    that is not supported. *)
Theorem constructor_rejects_unsupported app_under_test_dir test_bundle_dir
    sdk test_type signing_options work_dir w :
  sdk ∉ SUPPORTED_SDKS ∨ test_type ∉ SUPPORTED_TEST_TYPES →
  ∃ w',
    XctestRunFactory.__init__ app_under_test_dir test_bundle_dir sdk test_type
      signing_options work_dir w = (inl IllegalArgumentError, w') ∧
    fs w' = fs w.
Proof.
  intros Hbad.
  unfold XctestRunFactory.__init__, XctestRunFactory._ValidateArguments.
  unfold mbind, M_bind, getself, setself, when_, io, logging_info, raise,
    mret, M_ret, str_in. simpl.
  assert (bool_decide (sdk ∈ SUPPORTED_SDKS)
          && bool_decide (test_type ∈ SUPPORTED_TEST_TYPES) = false) as Hb.
  { destruct Hbad as [H|H]; rewrite (bool_decide_eq_false_2 _ H);
      [done | by rewrite andb_false_r]. }
  destruct (String.eqb sdk SDK.IPHONEOS); simpl;
    [|destruct (XctestRunFactory.options_truthy signing_options); simpl];
    destruct (bool_decide (sdk ∈ SUPPORTED_SDKS)); simpl; eauto;
    destruct (bool_decide (test_type ∈ SUPPORTED_TEST_TYPES)); simpl; eauto;
    done.
Qed.

Lemma constructor_rejects_unsupported_witness :
  ∃ w',
    XctestRunFactory.__init__ (Some "/in/App.app") "/in/MyTests.xctest"
      "macosx" TestType.XCTEST None None Example.inputs
    = (inl IllegalArgumentError, w') ∧
    fs w' = fs Example.inputs.
Proof.
  apply (constructor_rejects_unsupported (Some "/in/App.app")
           "/in/MyTests.xctest" "macosx" TestType.XCTEST None None
           Example.inputs).
  left. apply (bool_decide_unpack _). by vm_compute.
Defined.

(** ** Attributes that the methods of the factory leave alone *)

Section keeps.
Context {T : Type} (attribute : XctestRunFactory.obj → T).

Lemma keeps_field_ret {A} (a : A) : keeps_field attribute (mret a).
Proof. by intros s r s' [= <- <-]. Qed.

Lemma keeps_field_raise {A} e :
  keeps_field attribute (raise e : XctestRunFactory.method A).
Proof. by intros s r s' [= <- <-]. Qed.

Lemma keeps_field_getself : keeps_field attribute getself.
Proof. by intros s r s' [= <- <-]. Qed.

Lemma keeps_field_io {A} (m : M world A) : keeps_field attribute (io m).
Proof. intros s r s' H. by apply io_inv in H as (w' & _ & ->). Qed.

Lemma keeps_field_bind {A B} (m : XctestRunFactory.method A)
    (f : A → XctestRunFactory.method B) :
  keeps_field attribute m → (∀ a, keeps_field attribute (f a)) →
  keeps_field attribute (m ≫= f).
Proof.
  intros Hm Hf s r s'. unfold mbind, M_bind.
  destruct (m s) as [[e|a] s1] eqn:H1.
  - intros [= <- <-]. by eapply Hm.
  - intros H2. rewrite <-(Hm _ _ _ H1). by eapply Hf.
Qed.

Lemma keeps_field_when b (m : XctestRunFactory.method unit) :
  keeps_field attribute m → keeps_field attribute (when_ b m).
Proof. destruct b; [done | intros _; apply keeps_field_ret]. Qed.

Lemma keeps_field_try_except {A} (m : XctestRunFactory.method A) catches h :
  keeps_field attribute m → (∀ e, keeps_field attribute (h e)) →
  keeps_field attribute (try_except m catches h).
Proof.
  intros Hm Hh s r s'. unfold try_except.
  destruct (m s) as [[e|a] s1] eqn:H1.
  - destruct (catches e).
    + intros H2. rewrite <-(Hm _ _ _ H1). by eapply Hh.
    + intros [= <- <-]. by eapply Hm.
  - intros [= <- <-]. by eapply Hm.
Qed.

Lemma keeps_field_unwrap {A} (v : option A) :
  keeps_field attribute (XctestRunFactory.unwrap v).
Proof. destruct v; [apply keeps_field_ret | apply keeps_field_raise]. Qed.

Lemma keeps_field_first_path l :
  keeps_field attribute (XctestRunFactory.first_path l).
Proof. destruct l; [apply keeps_field_raise | apply keeps_field_ret]. Qed.

Lemma keeps_field_setself (f : XctestRunFactory.obj → XctestRunFactory.obj) :
  (∀ o, attribute (f o) = attribute o) → keeps_field attribute (setself f).
Proof. intros Hf s r s' [= <- <-]. apply Hf. Qed.

Lemma keeps_field_on_xctestrun_obj {A} (m : XctestRun.method A) :
  (∀ v o, attribute (XctestRunFactory.with_xctestrun_obj v o) = attribute o) →
  keeps_field attribute (XctestRunFactory.on_xctestrun_obj m).
Proof.
  intros Hattr s r s'. unfold XctestRunFactory.on_xctestrun_obj.
  destruct (XctestRunFactory._xctestrun_obj s.1); [|by intros [= <- <-]].
  destruct (m _) as [r' [x' w']]. intros [= <- <-]. apply Hattr.
Qed.

End keeps.

(** Goes through a method body for an attribute that no assignment in it
    touches. *)
Ltac keeps_field_tac :=
  repeat first
    [ apply keeps_field_bind; [|intros ?]
    | apply keeps_field_ret | apply keeps_field_raise
    | apply keeps_field_getself
    | apply keeps_field_io | apply keeps_field_unwrap
    | apply keeps_field_first_path
    | apply keeps_field_on_xctestrun_obj; done
    | apply keeps_field_when
    | apply keeps_field_try_except; [|intros ?]
    | apply keeps_field_setself; done
    | match goal with
      | |- keeps_field _ (if ?b then _ else _) => destruct b
      | |- keeps_field _ (match ?e with _ => _ end) => destruct e
      end ].

Lemma keeps_delete_flag_dispatch tc :
  keeps_field XctestRunFactory._delete_work_dir (XctestRunFactory.dispatch tc).
Proof.
  unfold XctestRunFactory.dispatch,
    XctestRunFactory._GenerateXctestrunFileForXcuitest,
    XctestRunFactory._GenerateXctestrunFileForXctest,
    XctestRunFactory._GenerateXctestrunFileForLogicTest.
  keeps_field_tac.
Qed.

Lemma keeps_delete_flag_make_portable tc :
  keeps_field XctestRunFactory._delete_work_dir
    (XctestRunFactory.make_portable tc).
Proof. unfold XctestRunFactory.make_portable. keeps_field_tac. Qed.

Lemma prepare_keeps_delete_flag tc self w r s' :
  str_truthy_opt (XctestRunFactory._work_dir self) = true →
  XctestRunFactory.prepare tc (self, w) = (r, s') →
  XctestRunFactory._delete_work_dir s'.1 = XctestRunFactory._delete_work_dir self.
Proof.
  intros Hwd. unfold XctestRunFactory.prepare.
  rewrite bind_getself. cbn [fst]. rewrite Hwd. revert r s'.
  match goal with
  | |- ∀ r s', ?m _ = _ → _ =>
      assert (keeps_field XctestRunFactory._delete_work_dir m) as Hk
        by keeps_field_tac
  end.
  intros r s' H. exact (Hk _ _ _ H).
Qed.

(** With a work dir given, generation never takes the work dir for its
    own, whether it returns or raises. *)
Lemma generate_keeps_delete_flag tc self w r s' :
  str_truthy_opt (XctestRunFactory._work_dir self) = true →
  XctestRunFactory.GenerateXctestrun tc (self, w) = (r, s') →
  XctestRunFactory._delete_work_dir s'.1 = XctestRunFactory._delete_work_dir self.
Proof.
  intros Hwd H. unfold XctestRunFactory.GenerateXctestrun in H.
  rewrite bind_getself in H. cbn [fst] in H.
  destruct (XctestRunFactory._xctestrun_obj self).
  { by injection H as <- <-. }
  rewrite (bind_io (logging_info "Generating xctestrun file.") _ self w ()
             _ eq_refl) in H.
  unfold mbind at 1, M_bind at 1 in H.
  destruct (XctestRunFactory.prepare _ _) as [[e|[]] sp] eqn:Hp.
  - injection H as <- <-. by eapply prepare_keeps_delete_flag.
  - rewrite <-(prepare_keeps_delete_flag _ _ _ _ _ Hwd Hp). revert H.
    match goal with
    | |- ?m _ = _ → _ =>
        assert (keeps_field XctestRunFactory._delete_work_dir m) as Hk
    end.
    { apply keeps_field_bind; [apply keeps_delete_flag_dispatch|intros ?].
      apply keeps_field_bind; [apply keeps_delete_flag_make_portable|intros ?].
      keeps_field_tac. }
    intros H. exact (Hk _ _ _ H).
Qed.

(** ** Generation and cleanup *)

(** X14: [GenerateXctestrun] generates once: when it has returned an
    object, every later call returns that object and does nothing else,
    whatever the file system then holds. *)
Theorem GenerateXctestrun_once tc self w x self' w' :
  XctestRunFactory.GenerateXctestrun tc (self, w) = (inr x, (self', w')) →
  ∀ w2, XctestRunFactory.GenerateXctestrun tc (self', w2) = (inr x, (self', w2)).
Proof.
  intros H w2.
  assert (XctestRunFactory._xctestrun_obj self' = Some x) as Hobj.
  { unfold XctestRunFactory.GenerateXctestrun in H.
    rewrite bind_getself in H. cbn [fst] in H.
    destruct (XctestRunFactory._xctestrun_obj self) eqn:Hs.
    - injection H as <- <- <-. done.
    - apply bind_inv in H as ([] & sl & _ & H).
      apply bind_inv in H as ([] & sp & _ & H).
      apply bind_inv in H as ([] & s1 & _ & H).
      apply bind_inv in H as ([] & s2 & _ & H).
      apply bind_inv in H as (self2 & s2' & [= <- <-] & H).
      by apply unwrap_inv in H as [H <-]. }
  unfold XctestRunFactory.GenerateXctestrun. rewrite bind_getself. cbn [fst].
  by rewrite Hobj.
Qed.

Lemma GenerateXctestrun_once_witness :
  ∃ x self' w',
    XctestRunFactory.GenerateXctestrun (Example.tc [])
      (Example.logic_factory, Example.inputs) = (inr x, (self', w')) ∧
    XctestRunFactory.GenerateXctestrun (Example.tc []) (self', Example.stored)
      = (inr x, (self', Example.stored)).
Proof.
  assert (∃ x self' w',
            XctestRunFactory.GenerateXctestrun (Example.tc [])
              (Example.logic_factory, Example.inputs) = (inr x, (self', w')))
    as (x & self' & w' & Hrun)
    by (eexists _, _, _; vm_compute; reflexivity).
  exists x, self', w'. split; [exact Hrun|].
  exact (GenerateXctestrun_once (Example.tc []) _ _ _ _ _ Hrun Example.stored).
Defined.

(** X15: [Close] never deletes a work dir that the caller gave: with a
    work dir given to a factory that owns none, after [GenerateXctestrun],
    whether that returned or raised, [Close] returns and leaves the file
    system as it is. *)
Theorem Close_keeps_given_work_dir tc self w r self' w' :
  str_truthy_opt (XctestRunFactory._work_dir self) = true →
  XctestRunFactory._delete_work_dir self = false →
  XctestRunFactory.GenerateXctestrun tc (self, w) = (r, (self', w')) →
  XctestRunFactory.Close (self', w') = (inr (), (self', w')).
Proof.
  intros Hwd Hflag H.
  pose proof (generate_keeps_delete_flag tc self w r _ Hwd H) as Hk.
  cbn [fst] in Hk. rewrite Hflag in Hk.
  unfold XctestRunFactory.Close. rewrite bind_getself. cbn [fst].
  by rewrite Hk.
Qed.

Lemma Close_keeps_given_work_dir_witness :
  ∃ r self' w',
    XctestRunFactory.GenerateXctestrun (Example.tc [])
      (Example.logic_factory, Example.inputs) = (r, (self', w')) ∧
    XctestRunFactory.Close (self', w') = (inr (), (self', w')).
Proof.
  destruct (XctestRunFactory.GenerateXctestrun (Example.tc [])
              (Example.logic_factory, Example.inputs))
    as [r [self' w']] eqn:Hrun.
  exists r, self', w'. split; [reflexivity|].
  exact (Close_keeps_given_work_dir (Example.tc []) Example.logic_factory
           Example.inputs r self' w' eq_refl eq_refl Hrun).
Defined.

(** X16: [Close] on a factory that owns its work dir removes the
    directory with everything below it and nothing else, and a second
    [Close] returns without doing anything. *)
Theorem Close_removes_own_work_dir self w work_dir :
  XctestRunFactory._delete_work_dir self = true →
  XctestRunFactory._work_dir self = Some work_dir →
  fs w !! work_dir = Some NDir →
  ∃ w',
    XctestRunFactory.Close (self, w) = (inr (), (self, w')) ∧
    (∀ k, fs w' !! k = if OS.under work_dir k then None else fs w !! k) ∧
    XctestRunFactory.Close (self, w') = (inr (), (self, w')).
Proof.
  intros Hflag Hwd Hdir.
  set (w' := World (filter (λ kv, OS.under work_dir kv.1 = false) (fs w))
               (log w) (tmp_seq w)).
  assert (∀ k, fs w' !! k = if OS.under work_dir k then None else fs w !! k)
    as Hlook.
  { intros k. simpl. destruct (OS.under work_dir k) eqn:Hu.
    - apply map_lookup_filter_None_2. right. intros n _. simpl. congruence.
    - destruct (fs w !! k) as [n|] eqn:Hk.
      + by apply map_lookup_filter_Some_2.
      + apply map_lookup_filter_None_2. by left. }
  exists w'. split; [|split; [done|]].
  - unfold XctestRunFactory.Close. rewrite bind_getself. cbn [fst].
    rewrite Hflag, Hwd, bind_unwrap.
    rewrite (bind_io _ _ _ _ _ _ (path_exists_dir _ _ Hdir)).
    unfold when_, io, OS.rmtree. cbn [fst snd]. by rewrite Hdir.
  - unfold XctestRunFactory.Close. rewrite bind_getself. cbn [fst].
    rewrite Hflag, Hwd, bind_unwrap.
    assert (fs w' !! work_dir = None) as Hgone
      by by rewrite Hlook, under_self.
    by rewrite (bind_io _ _ _ _ _ _ (path_exists_absent _ _ Hgone)).
Qed.

Lemma Close_removes_own_work_dir_witness :
  let self := XctestRunFactory.with_delete_work_dir true
                (XctestRunFactory.with_work_dir (Some "/in/MyTests.xctest")
                   Example.logic_factory) in
  ∃ w',
    XctestRunFactory.Close (self, Example.inputs) = (inr (), (self, w')) ∧
    fs w' !! "/in/MyTests.xctest/Info.plist" = None ∧
    fs w' !! "/in/App.app" = Some NDir.
Proof.
  intros self.
  destruct (Close_removes_own_work_dir self Example.inputs "/in/MyTests.xctest"
              eq_refl eq_refl eq_refl) as (w' & Hclose & Hlook & _).
  exists w'. split; [exact Hclose|]. rewrite !Hlook. split; reflexivity.
Defined.

(** What [tempfile.mkdtemp] has done when it returns: the path was not in
    use, it is a directory now, in a directory that was there, and nothing
    else has changed. *)
Lemma mkdtemp_from_inv dir names tries w d w1 :
  OS.mkdtemp_from dir names tries w = (inr d, w1) →
  fs w !! d = None ∧ OS.parent_isdir (fs w) d = true ∧
  fs w1 = <[d := NDir]> (fs w) ∧ log w1 = log w.
Proof.
  revert w. induction tries as [|tries IH]; intros w; [done|].
  cbn [OS.mkdtemp_from]. cbn [fs].
  destruct (fs w !! Py.join dir ("tmp" ++ names (tmp_seq w))) eqn:Hfile.
  - intros H. by apply IH in H.
  - unfold mbind, M_bind, OS.mkdir, set_fs. cbn [fs log tmp_seq].
    rewrite Hfile.
    destruct (negb (String.eqb _ "") && OS.parent_isdir (fs w) _) eqn:Hc;
      [|done].
    apply andb_true_iff in Hc as [_ Hc]. by intros [= <- <-].
Qed.

(** X17: without a work dir given, a generation that returns has made a
    temporary directory of its own: [tempfile.mkdtemp] has returned a path
    that was not in use and has made the directory there, in a directory
    that was there, without touching anything else; that path is the work
    dir of the factory from then on, marked for [Close] to delete. *)
Theorem generation_owns_temp_dir tc self w x self' w' :
  str_truthy_opt (XctestRunFactory._work_dir self) = false →
  XctestRunFactory._xctestrun_obj self = None →
  XctestRunFactory.GenerateXctestrun tc (self, w) = (inr x, (self', w')) →
  ∃ d w1,
    OS.mkdtemp tc
      (World (fs w) (app (log w) ["INFO Generating xctestrun file."])
         (tmp_seq w)) = (inr d, w1) ∧
    fs w !! d = None ∧
    OS.parent_isdir (fs w) d = true ∧
    fs w1 !! d = Some NDir ∧
    (∀ k, k ≠ d → fs w1 !! k = fs w !! k) ∧
    XctestRunFactory._work_dir self' = Some d ∧
    XctestRunFactory._delete_work_dir self' = true.
Proof.
  intros Hwd Hnone H. unfold XctestRunFactory.GenerateXctestrun in H.
  rewrite bind_getself in H. cbn [fst] in H. rewrite Hnone in H.
  rewrite (bind_io (logging_info "Generating xctestrun file.") _ self w ()
             _ eq_refl) in H.
  apply bind_inv in H as ([] & sp & Hprep & H).
  assert (∃ d w1,
            OS.mkdtemp tc
              (World (fs w) (app (log w) ["INFO Generating xctestrun file."])
                 (tmp_seq w)) = (inr d, w1) ∧
            XctestRunFactory._delete_work_dir sp.1 = true ∧
            XctestRunFactory._work_dir sp.1 = Some d)
    as (d & w1 & Hmk & Hflag & Hdir).
  { unfold XctestRunFactory.prepare in Hprep.
    rewrite bind_getself in Hprep. cbn [fst] in Hprep. rewrite Hwd in Hprep.
    rewrite !bind_assoc in Hprep.
    apply bind_inv in Hprep as (d & s0 & Hmk & Hprep).
    apply io_inv in Hmk as (w0 & Hmk & ->). cbn [fst snd] in *.
    exists d, w0. split; [exact Hmk|].
    cbv beta in Hprep. rewrite ?bind_assoc in Hprep.
    rewrite bind_setself in Hprep. cbv beta in Hprep.
    rewrite ?bind_assoc in Hprep. rewrite bind_setself in Hprep.
    cbn [fst snd] in Hprep.
    revert Hprep.
    match goal with
    | |- ?m _ = _ → _ =>
        assert (keeps_field XctestRunFactory._delete_work_dir m) as Hk1
          by keeps_field_tac;
        assert (keeps_field XctestRunFactory._work_dir m) as Hk2
          by keeps_field_tac
    end.
    intros Hprep. by rewrite (Hk1 _ _ _ Hprep), (Hk2 _ _ _ Hprep). }
  destruct (mkdtemp_from_inv _ _ _ _ _ _ Hmk) as (Hfree & Hparent & Hfs & _).
  cbn [fs] in Hfree, Hparent, Hfs.
  exists d, w1. split; [exact Hmk|]. split; [exact Hfree|].
  split; [exact Hparent|]. split; [by rewrite Hfs, lookup_insert_eq|].
  split; [by intros k Hk; rewrite Hfs, lookup_insert_ne|].
  revert H.
  match goal with
  | |- ?m _ = _ → _ =>
      assert (keeps_field XctestRunFactory._delete_work_dir m) as Hk1;
      [|assert (keeps_field XctestRunFactory._work_dir m) as Hk2]
  end.
  { apply keeps_field_bind; [apply keeps_delete_flag_dispatch|intros ?].
    apply keeps_field_bind; [apply keeps_delete_flag_make_portable|intros ?].
    keeps_field_tac. }
  { apply keeps_field_bind; [|intros ?].
    - intros s r s' Hd. by destruct (keeps_dispatch tc _ _ _ Hd).
    - unfold XctestRunFactory.make_portable. keeps_field_tac. }
  intros H. pose proof (Hk1 _ _ _ H) as H1. pose proof (Hk2 _ _ _ H) as H2.
  cbn [fst] in H1, H2. by rewrite H1, H2.
Qed.

Lemma generation_owns_temp_dir_witness :
  ∃ x self' w' d,
    XctestRunFactory.GenerateXctestrun (Example.tc [])
      (XctestRunFactory.with_work_dir None Example.logic_factory,
       Example.inputs) = (inr x, (self', w')) ∧
    fs Example.inputs !! d = None ∧
    XctestRunFactory._work_dir self' = Some d ∧
    XctestRunFactory._delete_work_dir self' = true.
Proof.
  assert (∃ x self' w',
            XctestRunFactory.GenerateXctestrun (Example.tc [])
              (XctestRunFactory.with_work_dir None Example.logic_factory,
               Example.inputs) = (inr x, (self', w')))
    as (x & self' & w' & Hrun)
    by (eexists _, _, _; vm_compute; reflexivity).
  destruct (generation_owns_temp_dir (Example.tc [])
              (XctestRunFactory.with_work_dir None Example.logic_factory)
              Example.inputs x self' w' eq_refl eq_refl Hrun)
    as (d & w1 & _ & Hfree & _ & _ & _ & Hdir & Hflag).
  exists x, self', w', d. split; [exact Hrun|]. split; [exact Hfree|].
  split; [exact Hdir | exact Hflag].
Defined.

Lemma when_raise_inv {S} (b : bool) e (s s' : S) :
  when_ b (raise e) s = (inr (), s') → b = false ∧ s' = s.
Proof. destruct b; [done|]. by intros [= <-]. Qed.

(** X18: the pipeline of the UI test goes on only with exactly one runner
    app: when the scan of the products directory after the build finds
    none, or more than one, it raises the xctestrun error right there,
    with the object as it was and the file system as the build left it. *)
Theorem Xcuitest_needs_one_runner_app tc self w work_dir test_root_dir profile
    w1 runner_apps :
  XctestRunFactory._work_dir self = Some work_dir →
  XctestRunFactory._test_root_dir self = Some test_root_dir →
  profile
    = (if XctestRunFactory.options_truthy (XctestRunFactory._signing_options self)
          && truthy_opt
               (XctestRunFactory.options_get
                  (XctestRunFactory._signing_options self)
                  "xctrunner_app_provisioning_profile")
       then XctestRunFactory.options_get
              (XctestRunFactory._signing_options self)
              "xctrunner_app_provisioning_profile"
       else None) →
  DummyProject_BuildForTesting tc (XctestRunFactory._app_under_test_dir self)
    (XctestRunFactory._test_bundle_dir self) (XctestRunFactory._sdk self)
    (XctestRunFactory._test_type self) work_dir profile test_root_dir
    (Py.join work_dir "dummyproject_derived_data") w = (inr (), w1) →
  OS.glob
    (Py.join (Py.join (Py.join work_dir "dummyproject_derived_data") "Build")
       "Products" ++ "/Debug-*/*-Runner.app") w1 = (inr runner_apps, w1) →
  length runner_apps ≠ 1 →
  XctestRunFactory._GenerateXctestrunFileForXcuitest tc (self, w)
  = (inl XctestrunError, (self, w1)).
Proof.
  intros Hwd Hroot -> Hbuild Hglob Hlen.
  unfold XctestRunFactory._GenerateXctestrunFileForXcuitest.
  rewrite bind_getself. cbn [fst]. rewrite Hwd, Hroot, !bind_unwrap.
  rewrite (bind_io _ _ _ _ _ _ Hbuild), (bind_io _ _ _ _ _ _ Hglob).
  destruct runner_apps as [|a [|b l]]; [reflexivity|by destruct Hlen|].
  rewrite (bool_decide_eq_false_2 (_ = [])) by done.
  rewrite (bool_decide_eq_true_2 (1 < _)) by (simpl; lia). reflexivity.
Qed.

Lemma Xcuitest_needs_one_runner_app_witness :
  let self := XctestRunFactory.Obj (Some "/in/App.app") "/in/MyTests.xctest"
                "MyTests" SDK.IPHONESIMULATOR TestType.XCUITEST (Some ∅)
                (Some "/work") (Some "/work/TEST_ROOT") None None false in
  XctestRunFactory._GenerateXctestrunFileForXcuitest (Example.tc [])
    (self, Example.inputs) = (inl XctestrunError, (self, Example.inputs)).
Proof.
  intros self.
  apply (Xcuitest_needs_one_runner_app (Example.tc []) self Example.inputs
           "/work" "/work/TEST_ROOT" None Example.inputs []).
  - reflexivity.
  - reflexivity.
  - reflexivity.
  - reflexivity.
  - vm_compute. reflexivity.
  - discriminate.
Defined.

(** ** Moving and replacing *)





(** X20: [_MoveAndReplaceFile] replaces only a directory.  When the place
    of that name exists and is a regular file or a link, [shutil.rmtree]
    refuses it: the call raises [OSError] and nothing has been moved or
    removed. *)
Theorem MoveAndReplaceFile_only_replaces_directory src dir node w :
  fs w !! Py.join dir (Py.basename src) = Some node →
  node ≠ NDir →
  OS.path_exists (Py.join dir (Py.basename src)) w = (inr true, w) →
  XctestRunFactory._MoveAndReplaceFile src dir w = (inl OSError, w).
Proof.
  intros Hdst Hnode Hex. unfold XctestRunFactory._MoveAndReplaceFile.
  rewrite (bind_inr _ _ _ _ _ Hex).
  apply bind_inl. unfold when_, OS.rmtree. rewrite Hdst. by destruct node.
Qed.

Lemma MoveAndReplaceFile_only_replaces_directory_witness :
  let w := World (<["/work/xctestrun.plist" := NFile (Text "old")]>
                   (<["/in/xctestrun.plist" := NFile (Text "new")]> ∅)) [] 0 in
  XctestRunFactory._MoveAndReplaceFile "/in/xctestrun.plist" "/work" w
    = (inl OSError, w).
Proof.
  intros w.
  apply (MoveAndReplaceFile_only_replaces_directory
           "/in/xctestrun.plist" "/work" (NFile (Text "old")) w).
  - reflexivity.
  - discriminate.
  - reflexivity.
Defined.

(** X21: [_MoveAndReplaceFile] of a directory into the directory it is
    already in destroys it.  The new path is the old one, so the tree is
    removed as the thing in the way, and the move that follows finds no
    source and raises; every path outside the tree is as before. *)
Theorem MoveAndReplaceFile_in_place_destroys src dir w :
  Py.join dir (Py.basename src) = src →
  fs w !! src = Some NDir →
  ∃ e w', XctestRunFactory._MoveAndReplaceFile src dir w = (inl e, w') ∧
    (∀ k, OS.under src k = true → fs w' !! k = None) ∧
    (∀ k, OS.under src k = false → fs w' !! k = fs w !! k).
Proof.
  intros Hsame Hsrc. unfold XctestRunFactory._MoveAndReplaceFile.
  rewrite Hsame.
  set (w0 := World (filter (λ kv, OS.under src kv.1 = false) (fs w))
               (log w) (tmp_seq w)).
  assert (∀ k, OS.under src k = true → fs w0 !! k = None) as Hin.
  { intros k Hk. simpl. apply map_lookup_filter_None_2. right.
    intros n _. simpl. congruence. }
  assert (OS.under src src = true) as Hss
    by (apply under_iff; exists ""; by rewrite str_app_empty_r; auto).
  exists IOError, w0. split; [|split].
  - rewrite (bind_inr _ _ _ _ _ (path_exists_dir _ _ Hsrc)).
    assert (when_ true (OS.rmtree src) w = (inr (), w0)) as Hrm
      by (unfold when_, OS.rmtree; by rewrite Hsrc).
    rewrite (bind_inr _ _ _ _ _ Hrm).
    apply bind_inl. unfold OS.move.
    assert (OS.isdir (fs w0) src = false) as ->
      by (unfold OS.isdir, OS.resolve; by rewrite !(Hin _ Hss)).
    cbn [andb]. unfold OS.rename. by rewrite (Hin _ Hss).
  - exact Hin.
  - intros k Hk. simpl. destruct (fs w !! k) as [n|] eqn:Hm.
    + by apply map_lookup_filter_Some_2.
    + by apply map_lookup_filter_None_2; left.
Qed.

Lemma MoveAndReplaceFile_in_place_destroys_witness :
  ∃ e w', XctestRunFactory._MoveAndReplaceFile "/in/MyTests.xctest" "/in"
            Example.inputs = (inl e, w') ∧
    fs w' !! "/in/MyTests.xctest/Info.plist" = None ∧
    fs w' !! "/in/App.app" = Some NDir.
Proof.
  destruct (MoveAndReplaceFile_in_place_destroys "/in/MyTests.xctest" "/in"
              Example.inputs) as (e & w' & Hrun & Hgone & Hframe).
  - reflexivity.
  - reflexivity.
  - exists e, w'. split; [exact Hrun|]. split.
    + by apply Hgone.
    + by rewrite Hframe.
Defined.

(** ** [Run] *)

(** X22: [Run] logs the device, then hands the executor the
    [xcodebuild test-without-building] command for the object's file, the
    device and the derived data directory, together with the two signals,
    the sdk and the test type of the object: the one it was given, or else
    the one inferred from the file, which the object keeps from then on.
    The exit code of the executor is returned as it is, its output is
    dropped, and an exception of the executor is raised to the caller. *)
Theorem Run_hands_command_and_test_type tc executor x w fields device_id sdk dd :
  store_ok tc x w fields →
  let ty :=
    if str_truthy_opt (XctestRun._test_type x) then XctestRun._test_type x
    else if bool_decide (is_Some (fields !! "UITargetAppPath"))
         then Some TestType.XCUITEST else Some TestType.XCTEST in
  let command := ["xcodebuild"; "test-without-building";
                  "-xctestrun"; XctestRun._xctestrun_file_path x;
                  "-destination"; "id=" ++ device_id;
                  "-derivedDataPath"; dd] in
  let w1 := World (fs w)
              (app (log w)
                 ["INFO Running test-without-building with device " ++ device_id])
              (tmp_seq w) in
  XctestRun.Run tc executor device_id sdk dd (x, w) =
    match executor command "** TEST EXECUTE SUCCEEDED **"
            "** TEST EXECUTE FAILED **" sdk ty device_id w1 with
    | (inr (exit_code, _), w2) =>
        (inr exit_code, (XctestRun.with_test_type ty x, w2))
    | (inl e, w2) => (inl e, (XctestRun.with_test_type ty x, w2))
    end.
Proof.
  intros Hok ty command w1.
  assert (store_ok tc x w1 fields) as Hok1 by exact Hok.
  assert (walk (segments "UITargetAppPath") (PDict fields)
          = fields !! "UITargetAppPath") as Hwalk.
  { change (segments "UITargetAppPath") with ["UITargetAppPath"]. simpl.
    by destruct (fields !! "UITargetAppPath"). }
  assert (XctestRun.test_type tc (x, w1)
          = (inr ty, (XctestRun.with_test_type ty x, w1))) as Hty.
  { unfold XctestRun.test_type. rewrite bind_getself. cbn [fst].
    subst ty. destruct (str_truthy_opt (XctestRun._test_type x)) eqn:Ht.
    - simpl. by destruct x.
    - simpl. rewrite bind_assoc.
      rewrite (bind_inr _ _ _ _ _ (HasXctestrunField_walk tc _ _ _ _ Hok1)).
      rewrite Hwalk. by destruct (bool_decide _). }
  unfold XctestRun.Run. rewrite bind_getself. cbn [fst].
  rewrite (bind_io (logging_info _) _ _ _ _ w1 eq_refl).
  rewrite (bind_inr _ _ _ _ _ Hty).
  unfold mbind, M_bind, io, mret, M_ret. simpl.
  fold command.
  destruct (executor command _ _ sdk ty device_id w1) as [[e|[code out]] w2];
    reflexivity.
Qed.

Lemma Run_hands_command_and_test_type_witness :
  XctestRun.Run (Example.tc [])
    (λ command _ _ _ test_type _,
       if bool_decide (test_type = Some TestType.XCTEST ∧
                       command !! 3%nat = Some "/run/xctestrun.plist")
       then mret (0%Z, "out") else raise OSError)
    "device" SDK.IPHONESIMULATOR "/derived" (Example.x, Example.stored)
  = (inr 0%Z,
     (XctestRun.with_test_type (Some TestType.XCTEST) Example.x,
      World (fs Example.stored)
        ["INFO Running test-without-building with device device"] 0)).
Proof.
  rewrite (Run_hands_command_and_test_type (Example.tc []) _ Example.x
             Example.stored Example.fields "device" SDK.IPHONESIMULATOR
             "/derived").
  - reflexivity.
  - split; [reflexivity|]. eexists _, _.
    split; [reflexivity|]. split; reflexivity.
Defined.
